(** * Performance regression detector (scripts/performance_regression_detector.py)

    A shallow embedding of the class [PerformanceRegressionDetector] and of
    the exit logic of [main], followed by the properties of the detector that
    the specification states.

    Modelling conventions.
    - Python numbers loaded from JSON ([int], [float], and [bool], which
      passes [isinstance(v, (int, float))]) are exact rationals: IEEE
      rounding, overflow and the non-finite JSON literals are outside the
      model.  A computed [change_percent] is a [number], because the trend
      path divides numpy floats, where a zero divisor gives [inf] or [nan];
      it is stored in lowest terms, so that equal percentages are equal
      terms.
    - Python's [/] on [int] and [float] raises [ZeroDivisionError] on a zero
      divisor; exceptions are the [Raise] results of the [result] monad.
    - A [dict] is an association list in insertion order; iteration follows
      that order and a lookup returns the first binding of the key.
    - [str.lower] is modelled on ASCII letters.
    - The clock ([datetime.now()]) and [scipy.stats.linregress] are inputs.
    - The imports of the module are taken to succeed; what the sinks and the
      plotting library do with what they are handed is not modelled. *)

From Stdlib Require Import List String Ascii ZArith QArith Qabs Qround Bool Lia Lqa.
From Stdlib Require Import DecimalString Permutation Sorted OrdersEx.
Import ListNotations.
Open Scope string_scope.
Open Scope Q_scope.

(** ** Exceptions and the error monad *)

Inductive exn : Type :=
| FileNotFoundError
| JSONDecodeError
| ZeroDivisionError
| TypeError
| AttributeError
| StatisticsError
| OverflowError
| ValueError
| ImportError
| OSError.

Inductive result (A : Type) : Type :=
| Ok (a : A)
| Raise (e : exn).
Arguments Ok {A} a.
Arguments Raise {A} e.

Definition bind {A B : Type} (m : result A) (k : A -> result B) : result B :=
  match m with
  | Ok a => k a
  | Raise e => Raise e
  end.

Notation "x <- m ;; k" := (bind m (fun x => k))
  (at level 61, m at next level, right associativity).

(** ** JSON values and snapshots *)

Local Unset Elimination Schemes.
Inductive pyval : Type :=
| PNone
| PBool (b : bool)
| PInt (z : Z)
| PFloat (q : Q)
| PStr (s : string)
| PList (l : list pyval)
| PDict (items : list (string * pyval)).
Local Set Elimination Schemes.

Definition snapshot : Type := list (string * pyval).

(** [isinstance(v, (int, float))] *)
Definition is_number (v : pyval) : bool :=
  match v with
  | PBool _ | PInt _ | PFloat _ => true
  | _ => false
  end.

(** The numeric value of a number; [True] is 1 and [False] is 0. *)
Definition num_of (v : pyval) : Q :=
  match v with
  | PBool true => 1
  | PInt z => inject_Z z
  | PFloat q => q
  | _ => 0
  end.

(** [d.get(k)] / [d[k]] on an insertion-ordered dict *)
Fixpoint lookup {A : Type} (k : string) (d : list (string * A)) : option A :=
  match d with
  | [] => None
  | (k', v) :: d' => if String.eqb k k' then Some v else lookup k d'
  end.

(** ** Strings *)

Definition lower_ascii (c : ascii) : ascii :=
  let n := nat_of_ascii c in
  if (65 <=? n)%nat && (n <=? 90)%nat then ascii_of_nat (n + 32) else c.

Fixpoint lower (s : string) : string :=
  match s with
  | EmptyString => EmptyString
  | String c s' => String (lower_ascii c) (lower s')
  end.

Fixpoint upper (s : string) : string :=
  match s with
  | EmptyString => EmptyString
  | String c s' =>
      let n := nat_of_ascii c in
      String (if (97 <=? n)%nat && (n <=? 122)%nat then ascii_of_nat (n - 32) else c)
             (upper s')
  end.

(** [needle in hay] *)
Fixpoint contains (needle hay : string) : bool :=
  if String.prefix needle hay then true
  else match hay with
       | EmptyString => false
       | String _ hay' => contains needle hay'
       end.

(** ["\n".join(lines)] *)
Fixpoint join_lines (lines : list string) : string :=
  match lines with
  | [] => ""
  | [l] => l
  | l :: ls => l ++ String "010" (join_lines ls)
  end.

Definition str_of_nat (n : nat) : string := NilZero.string_of_uint (Nat.to_uint n).

Definition str_of_Z (z : Z) : string := NilZero.string_of_int (Z.to_int z).

(** ** Numbers *)

(** The values a computed percentage can take. *)
Inductive number : Type :=
| Fin (q : Q)
| Inf
| NaN.

(** [x >= c] and [x > c] against a finite constant *)
Definition num_geb (x : number) (c : Q) : bool :=
  match x with
  | Fin q => Qle_bool c q
  | Inf => true
  | NaN => false
  end.

Definition num_gtb (x : number) (c : Q) : bool :=
  match x with
  | Fin q => negb (Qle_bool q c)
  | Inf => true
  | NaN => false
  end.

(** [x <= y] on numbers *)
Definition num_leb (x y : number) : bool :=
  match x, y with
  | Fin a, Fin b => Qle_bool a b
  | Fin _, Inf => true
  | Inf, Inf => true
  | _, _ => false
  end.

(** Python's true division on [int] and [float] operands. *)
Definition truediv (a b : Q) : result Q :=
  if Qeq_bool b 0 then Raise ZeroDivisionError else Ok (a / b).

(** Division of a non-negative numpy float by a Python number: no exception,
    a zero divisor gives [inf], or [nan] when the dividend is zero too. *)
Definition np_truediv (a b : Q) : number :=
  if Qeq_bool b 0 then (if Qeq_bool a 0 then NaN else Inf) else Fin (Qred (a / b)).

Definition num_scale (x : number) (c : Q) : number :=
  match x with
  | Fin q => Fin (Qred (q * c))
  | other => other
  end.

(** *** Fixed-point formatting, [f"{x:.<d>f}"] *)

(** Nearest integer to [q >= 0], ties to even. *)
Definition round_half_even (q : Q) : Z :=
  let n := Qnum q in
  let d := Zpos (Qden q) in
  let f := (n / d)%Z in
  let r := (n mod d)%Z in
  match (2 * r ?= d)%Z with
  | Lt => f
  | Gt => (f + 1)%Z
  | Eq => if Z.even f then f else (f + 1)%Z
  end.

Fixpoint zero_pad (width : nat) (s : string) : string :=
  match width with
  | O => s
  | S w => if (String.length s <? width)%nat then "0" ++ zero_pad w s else s
  end.

Definition format_fixed (digits : nat) (q : Q) : string :=
  let scale := (10 ^ Z.of_nat digits)%Z in
  let n := round_half_even (Qabs q * inject_Z scale) in
  let body := str_of_Z (n / scale) ++
              match digits with
              | O => ""
              | _ => "." ++ zero_pad digits (str_of_Z (n mod scale))
              end in
  if Qle_bool 0 q then body else "-" ++ body.

Definition format_number (digits : nat) (x : number) : string :=
  match x with
  | Fin q => format_fixed digits q
  | Inf => "inf"
  | NaN => "nan"
  end.

Definition Qsum (l : list Q) : Q := fold_right Qplus 0 l.

(** [statistics.mean]: the arithmetic mean, [StatisticsError] on no data. *)
Definition mean (l : list Q) : result Q :=
  match l with
  | [] => Raise StatisticsError
  | _ => Ok (Qred (Qsum l / inject_Z (Z.of_nat (List.length l))))
  end.

(** [int(x)]: truncation towards zero. *)
Definition int_of (q : Q) : Z := Z.quot (Qnum q) (Zpos (Qden q)).

(** ** Configuration constants *)

Definition REGRESSION_THRESHOLD : Q := 15.
(** [0.95] is read as the nearest double, 4278419646001971 / 2^52; the
    difference [1 - CONFIDENCE_LEVEL] is then exact in binary64 as well
    (0.050000000000000044...). *)
Definition CONFIDENCE_LEVEL : Q := 4278419646001971 # 4503599627370496.
Definition MIN_SAMPLE_SIZE : nat := 10.

(** ** Regressions *)

Inductive Severity : Type := low | medium | high | critical.

Definition severity_name (s : Severity) : string :=
  match s with
  | low => "low"
  | medium => "medium"
  | high => "high"
  | critical => "critical"
  end.

Definition severity_eqb (a b : Severity) : bool :=
  match a, b with
  | low, low | medium, medium | high, high | critical, critical => true
  | _, _ => false
  end.

(** The total order critical > high > medium > low. *)
Definition severity_rank (s : Severity) : nat :=
  match s with
  | low => 0
  | medium => 1
  | high => 2
  | critical => 3
  end.

(** The keys that depend on the detection path: ['baseline'] and ['current']
    for a baseline comparison, ['slope'], ['r_squared'] and ['p_value'] for a
    trend. *)
Inductive evidence : Type :=
| BaselineEvidence (baseline current : Q)
| TrendEvidence (slope r_squared p_value : Q).

Record regression : Type := mkRegression {
  metric : string;
  reg_evidence : evidence;
  change_percent : number;
  severity : Severity;
  description : string
}.

(** The ['type'] key. *)
Definition reg_type (r : regression) : string :=
  match reg_evidence r with
  | BaselineEvidence _ _ => "baseline_comparison"
  | TrendEvidence _ _ _ => "trend_analysis"
  end.

Definition is_trend (r : regression) : bool :=
  match reg_evidence r with
  | TrendEvidence _ _ _ => true
  | BaselineEvidence _ _ => false
  end.

(** ** The classifier *)

Definition higher_worse_keywords : list string :=
  ["time"; "latency"; "memory"; "cpu"; "disk"].

Definition is_higher_worse (metric_name : string) : bool :=
  existsb (fun keyword => contains keyword (lower metric_name)) higher_worse_keywords.

Definition _calculate_severity (change_percent : number) : Severity :=
  if num_geb change_percent 50 then critical
  else if num_geb change_percent 30 then high
  else if num_geb change_percent 20 then medium
  else low.

Definition baseline_regression (metric_name : string) (baseline current : Q)
    (change_percent : number) : regression :=
  {| metric := metric_name;
     reg_evidence := BaselineEvidence baseline current;
     change_percent := change_percent;
     severity := _calculate_severity change_percent;
     description := metric_name ++ " degraded by " ++
                    format_number 1 change_percent ++ "% from baseline" |}.

Definition _check_metric_regression (metric_name : string) (baseline current : Q)
    : result (option regression) :=
  if is_higher_worse metric_name then
    ratio <- truediv (current - baseline) baseline ;;
    let change_percent := Fin (Qred (ratio * 100)) in
    if num_gtb change_percent REGRESSION_THRESHOLD
    then Ok (Some (baseline_regression metric_name baseline current change_percent))
    else Ok None
  else
    ratio <- truediv (baseline - current) baseline ;;
    let change_percent := Fin (Qred (ratio * 100)) in
    if num_gtb change_percent REGRESSION_THRESHOLD
    then Ok (Some (baseline_regression metric_name baseline current change_percent))
    else Ok None.

(** ** The detector *)

Record EmailConfig : Type := mkEmailConfig {
  email_from : string;
  email_to : string;
  smtp_server : string;
  smtp_port : Z;
  username : string;
  password : string
}.

Record Config : Type := mkConfig {
  email : option EmailConfig;
  slack_webhook : option string
}.

Record Detector : Type := mkDetector {
  config : Config;
  baseline_metrics : snapshot;
  current_metrics : snapshot;
  historical_metrics : list snapshot
}.

(** The first loop of [detect_regressions]: one check per baseline item that
    is also in the current snapshot, both values being numbers. *)
Fixpoint compare_with_baseline (current : snapshot) (items : snapshot)
    : result (list regression) :=
  match items with
  | [] => Ok []
  | (metric_name, baseline_value) :: rest =>
      found <- match lookup metric_name current with
               | Some current_value =>
                   if is_number baseline_value && is_number current_value
                   then _check_metric_regression metric_name
                          (num_of baseline_value) (num_of current_value)
                   else Ok None
               | None => Ok None
               end ;;
      regressions <- compare_with_baseline current rest ;;
      Ok match found with
         | Some regression => regression :: regressions
         | None => regressions
         end
  end.

(** [metric_types[name].append(value)], creating the list on first use. *)
Fixpoint dict_append {A : Type} (k : string) (v : A) (d : list (string * list A))
    : list (string * list A) :=
  match d with
  | [] => [(k, [v])]
  | (k', vs) :: d' =>
      if String.eqb k k' then (k', (vs ++ [v])%list) :: d'
      else (k', vs) :: dict_append k v d'
  end.

(** The body of the inner loop of [_detect_trend_regressions]. *)
Definition group_step (metric_types : list (string * list Q)) (item : string * pyval)
    : list (string * list Q) :=
  let '(metric_name, value) := item in
  if negb (String.eqb metric_name "timestamp") && is_number value
  then dict_append metric_name (num_of value) metric_types
  else metric_types.

Definition group_data_point (metric_types : list (string * list Q))
    (data_point : snapshot) : list (string * list Q) :=
  fold_left group_step data_point metric_types.

(** The dict [metric_types] built by [_detect_trend_regressions]. *)
Definition group_metrics (historical : list snapshot) : list (string * list Q) :=
  fold_left group_data_point historical [].

Record LinregressResult : Type := mkLinregress {
  lr_slope : Q;
  lr_intercept : Q;
  lr_rvalue : Q;
  lr_pvalue : Q;
  lr_stderr : Q
}.

Definition Qltb (a b : Q) : bool := negb (Qle_bool b a).

(** [np.arange(n)] *)
Definition arange (n : nat) : list Q :=
  map (fun i => inject_Z (Z.of_nat i)) (seq 0 n).

Section Trend.

(** [scipy.stats.linregress(x, y)] *)
Variable linregress : list Q -> list Q -> LinregressResult.

Definition _analyze_trend (metric_name : string) (values : list Q)
    : result (option regression) :=
  let x := arange (List.length values) in
  let fit := linregress x values in
  let slope := lr_slope fit in
  let p_value := lr_pvalue fit in
  if Qltb p_value (1 - CONFIDENCE_LEVEL) then
    let higher_worse := is_higher_worse metric_name in
    if (higher_worse && Qltb 0 slope) || (negb higher_worse && Qltb slope 0) then
      let total_change := slope * inject_Z (Z.of_nat (List.length values)) in
      baseline_avg <- mean (firstn 5 values) ;;
      let change_percent :=
        num_scale (np_truediv (Qabs total_change) baseline_avg) 100 in
      if num_gtb change_percent REGRESSION_THRESHOLD then
        Ok (Some {| metric := metric_name;
                    reg_evidence :=
                      TrendEvidence slope (lr_rvalue fit * lr_rvalue fit) p_value;
                    change_percent := change_percent;
                    severity := _calculate_severity change_percent;
                    description :=
                      metric_name ++ " shows significant degrading trend (p=" ++
                      format_fixed 4 p_value ++ ")" |})
      else Ok None
    else Ok None
  else Ok None.

(** The second loop of [_detect_trend_regressions]. *)
Fixpoint analyze_trends (metric_types : list (string * list Q))
    : result (list regression) :=
  match metric_types with
  | [] => Ok []
  | (metric_name, values) :: rest =>
      found <- (if (MIN_SAMPLE_SIZE <=? List.length values)%nat
                then _analyze_trend metric_name values
                else Ok None) ;;
      regressions <- analyze_trends rest ;;
      Ok match found with
         | Some regression => regression :: regressions
         | None => regressions
         end
  end.

Definition _detect_trend_regressions (self : Detector) : result (list regression) :=
  analyze_trends (group_metrics (historical_metrics self)).

Definition detect_regressions (self : Detector) : result (list regression) :=
  regressions <- compare_with_baseline (current_metrics self) (baseline_metrics self) ;;
  if (MIN_SAMPLE_SIZE <=? List.length (historical_metrics self))%nat then
    trend_regressions <- _detect_trend_regressions self ;;
    Ok (regressions ++ trend_regressions)%list
  else Ok regressions.

End Trend.

(** ** The performance score *)

(** [max(a, b)] and [min(a, b)] of two numbers: the first argument wins ties. *)
Definition py_max (a b : Q) : Q := if Qltb a b then b else a.
Definition py_min (a b : Q) : Q := if Qltb b a then b else a.

Fixpoint collect_scores (current : snapshot) (items : snapshot) : result (list Q) :=
  match items with
  | [] => Ok []
  | (metric_name, baseline_value) :: rest =>
      found <- match lookup metric_name current with
               | Some current_value =>
                   if is_number baseline_value && is_number current_value then
                     ratio <- (if is_higher_worse metric_name
                               then truediv (num_of baseline_value) (num_of current_value)
                               else truediv (num_of current_value) (num_of baseline_value)) ;;
                     Ok (Some (py_min 100 (py_max 0 (ratio * 100))))
                   else Ok None
               | None => Ok None
               end ;;
      scores <- collect_scores current rest ;;
      Ok match found with
         | Some score => score :: scores
         | None => scores
         end
  end.

Definition is_empty {A : Type} (l : list A) : bool :=
  match l with
  | [] => true
  | _ :: _ => false
  end.

Definition _calculate_performance_score (self : Detector) : result Z :=
  if is_empty (current_metrics self) || is_empty (baseline_metrics self) then Ok 50%Z
  else
    scores <- collect_scores (current_metrics self) (baseline_metrics self) ;;
    if is_empty scores then Ok 50%Z
    else m <- mean scores ;; Ok (int_of m).

(** ** The report *)

(** [severity_groups[severity].append(regression)] *)
Fixpoint group_append (s : Severity) (r : regression)
    (groups : list (Severity * list regression)) : list (Severity * list regression) :=
  match groups with
  | [] => [(s, [r])]
  | (s', rs) :: groups' =>
      if severity_eqb s s' then (s', (rs ++ [r])%list) :: groups'
      else (s', rs) :: group_append s r groups'
  end.

Definition group_by_severity (regressions : list regression)
    : list (Severity * list regression) :=
  fold_left (fun groups r => group_append (severity r) r groups) regressions [].

Fixpoint group_lookup (s : Severity) (groups : list (Severity * list regression))
    : option (list regression) :=
  match groups with
  | [] => None
  | (s', rs) :: groups' => if severity_eqb s s' then Some rs else group_lookup s groups'
  end.

Definition render_regression (r : regression) : list string :=
  ("- **" ++ metric r ++ "**: " ++ description r) ::
  List.app
    match reg_evidence r with
    | BaselineEvidence baseline current =>
        [ "  - Baseline: " ++ format_fixed 2 baseline;
          "  - Current: " ++ format_fixed 2 current;
          "  - Change: " ++ format_number 1 (change_percent r) ++ "%" ]
    | TrendEvidence _ _ _ => []
    end
    [""].

Definition render_severity (groups : list (Severity * list regression)) (s : Severity)
    : list string :=
  match group_lookup s groups with
  | Some group =>
      ("## " ++ upper (severity_name s) ++ " SEVERITY (" ++
       str_of_nat (List.length group) ++ ")") :: flat_map render_regression group
  | None => []
  end.

Definition key_metrics : list string :=
  ["response_time"; "throughput"; "cpu_usage"; "memory_usage"].

Definition key_metric_line (current : snapshot) (metric_key : string) : list string :=
  match find (fun item => contains metric_key (lower (fst item)) && is_number (snd item))
             current with
  | Some (key, value) => ["- " ++ key ++ ": " ++ format_fixed 2 (num_of value)]
  | None => []
  end.

Definition _generate_performance_summary (self : Detector) : result string :=
  score <- _calculate_performance_score self ;;
  Ok (join_lines
        (("**Overall Performance Score**: " ++ str_of_Z score ++ "/100") ::
         if is_empty (current_metrics self) then []
         else (String "010" "### Key Metrics:") ::
              flat_map (key_metric_line (current_metrics self)) key_metrics)).

(** [now] is [datetime.now().isoformat()]. *)
Definition generate_report (self : Detector) (now : string)
    (regressions : list regression) : result string :=
  let header :=
    [ "# Performance Regression Report";
      "Generated: " ++ now;
      "Regressions Detected: " ++ str_of_nat (List.length regressions);
      "" ] in
  let body :=
    if is_empty regressions then ["‚úÖ No performance regressions detected!"]
    else
      let severity_groups := group_by_severity regressions in
      flat_map (render_severity severity_groups) [critical; high; medium; low] in
  summary <- _generate_performance_summary self ;;
  Ok (join_lines (List.app header (List.app body ["## Performance Summary"; summary]))).

(** ** Alerts *)

Record SlackField : Type := mkSlackField {
  field_title : string;
  field_value : string;
  field_short : bool
}.

Inductive Attachment : Type :=
| FieldsAttachment (color : string) (fields : list SlackField)
| TextAttachment (color : string) (text : string).

Record SlackMessage : Type := mkSlackMessage {
  message_text : string;
  attachments : list Attachment
}.

Definition has_severity (s : Severity) (r : regression) : bool :=
  severity_eqb (severity r) s.

(** The JSON document posted by [_send_slack_notification]; [stamp] is
    [datetime.now().strftime("%Y-%m-%d %H:%M:%S")]. *)
Definition slack_payload (subject : string) (regressions : list regression)
    (stamp : string) : SlackMessage :=
  let critical_count := List.length (filter (has_severity critical) regressions) in
  let high_count := List.length (filter (has_severity high) regressions) in
  let critical_regressions := filter (has_severity critical) regressions in
  {| message_text := subject;
     attachments :=
       FieldsAttachment "danger"
         [ {| field_title := "Summary";
              field_value := "Critical: " ++ str_of_nat critical_count ++
                             ", High: " ++ str_of_nat high_count;
              field_short := true |};
           {| field_title := "Time"; field_value := stamp; field_short := true |} ] ::
       map (fun regression =>
              TextAttachment "danger" ("‚Ä¢ " ++ description regression))
           (firstn 5 critical_regressions) |}.

Inductive Delivery : Type :=
| EmailDelivery (to subject body : string)
| SlackDelivery (webhook_url : string) (message : SlackMessage).

(** The deliveries that [send_alert] attempts, in order; [now] is the ISO
    time stamp of the body and [stamp] the time field of the chat message. *)
Definition send_alert (self : Detector) (now stamp : string)
    (regressions : list regression) : list Delivery :=
  if is_empty regressions then []
  else
    let alert_regressions :=
      filter (fun r => has_severity high r || has_severity critical r) regressions in
    if is_empty alert_regressions then []
    else
      let subject := "üö® Performance Regression Alert - " ++
                     str_of_nat (List.length alert_regressions) ++ " Issues Detected" in
      let nl := String "010" "" in
      let body :=
        nl ++ "Performance regressions detected in ProvChain-Org:" ++ nl ++ nl ++
        "Critical Issues: " ++
        str_of_nat (List.length (filter (has_severity critical) alert_regressions)) ++ nl ++
        "High Issues: " ++
        str_of_nat (List.length (filter (has_severity high) alert_regressions)) ++ nl ++ nl ++
        "Details:" ++ nl ++
        String.concat "" (map (fun r => nl ++ "- " ++ description r) alert_regressions) ++
        nl ++ nl ++ "Report generated: " ++ now in
      List.app
        match email (config self) with
        | Some email_config => [EmailDelivery (email_to email_config) subject body]
        | None => []
        end
        match slack_webhook (config self) with
        | Some url => [SlackDelivery url (slack_payload subject alert_regressions stamp)]
        | None => []
        end.

(** ** Loading the historical snapshots *)

(** What [open] followed by [json.load] does on one file of the directory. *)
Inductive file_read : Type :=
| FileMissing
| FileMalformed
| FileJson (data : pyval).

(** The [for] loop inside the [try] block: the list read so far and the
    exception that ended the loop, if any. *)
Fixpoint read_files (files : list file_read) (historical : list pyval)
    : list pyval * option exn :=
  match files with
  | [] => (historical, None)
  | FileMissing :: _ => (historical, Some FileNotFoundError)
  | FileMalformed :: _ => (historical, Some JSONDecodeError)
  | FileJson data :: rest => read_files rest (historical ++ [data])%list
  end.

(** [x.get('timestamp', '')]; only a dict has [get]. *)
Definition timestamp_key (x : pyval) : result (pyval * snapshot) :=
  match x with
  | PDict items =>
      Ok (match lookup "timestamp" items with
          | Some t => t
          | None => PStr ""
          end, items)
  | _ => Raise AttributeError
  end.

(** [a < b] between sort keys: strings by code point, numbers by value; a
    [TypeError] between the two kinds and on [None] and dicts (an order on
    list-valued keys is not modelled). *)
Definition py_lt (a b : pyval) : result bool :=
  match a, b with
  | PStr s, PStr t => Ok (String.ltb s t)
  | (PBool _ | PInt _ | PFloat _), (PBool _ | PInt _ | PFloat _) =>
      Ok (Qltb (num_of a) (num_of b))
  | _, _ => Raise TypeError
  end.

Fixpoint insert_by_key (x : pyval * snapshot) (sorted : list (pyval * snapshot))
    : result (list (pyval * snapshot)) :=
  match sorted with
  | [] => Ok [x]
  | y :: rest =>
      lt <- py_lt (fst y) (fst x) ;;
      if lt then tail <- insert_by_key x rest ;; Ok (y :: tail)
      else Ok (x :: y :: rest)
  end.

(** A stable sort on the keys. *)
Fixpoint sort_by_key (l : list (pyval * snapshot)) : result (list (pyval * snapshot)) :=
  match l with
  | [] => Ok []
  | x :: rest => sorted <- sort_by_key rest ;; insert_by_key x sorted
  end.

Fixpoint map_result {A B : Type} (f : A -> result B) (l : list A) : result (list B) :=
  match l with
  | [] => Ok []
  | a :: rest => b <- f a ;; bs <- map_result f rest ;; Ok (b :: bs)
  end.

(** [sorted(historical, key=lambda x: x.get('timestamp', ''))] *)
Definition sorted_by_timestamp (historical : list pyval) : result (list snapshot) :=
  keyed <- map_result timestamp_key historical ;;
  sorted <- sort_by_key keyed ;;
  Ok (map snd sorted).

(** [files] is what the glob over the historical directory yields (nothing
    when the directory does not exist). *)
Definition load_historical_metrics (files : list file_read) : result (list snapshot) :=
  let '(historical, raised) := read_files files [] in
  match raised with
  | None | Some FileNotFoundError => sorted_by_timestamp historical
  | Some e => Raise e
  end.

(** ** The exit status of [main] *)

Definition exit_status (regressions : list regression) : Z :=
  let critical_regressions := filter (has_severity critical) regressions in
  if negb (is_empty critical_regressions) then 1%Z
  else if negb (is_empty regressions) then 2%Z
  else 0%Z.

(** ** Reference definitions taken from the specification *)

(** The signed percentage degradation of section 4.2, as a formula. *)
Definition change_percent_spec (metric_name : string) (baseline current : Q) : Q :=
  if is_higher_worse metric_name
  then (current - baseline) / baseline * 100
  else (baseline - current) / baseline * 100.

(** The numeric series of one metric across the historical snapshots, in
    order: the values of the items named [m] that are numbers. *)
Definition series_item (m : string) (item : string * pyval) : bool :=
  String.eqb (fst item) m && negb (String.eqb (fst item) "timestamp") &&
  is_number (snd item).

Definition series_of_items (m : string) (items : snapshot) : list Q :=
  map (fun item => num_of (snd item)) (filter (series_item m) items).

Definition metric_series (m : string) (historical : list snapshot) : list Q :=
  series_of_items m (List.concat historical).

(** The metric pairs that [score()] compares: name, baseline and current. *)
Fixpoint comparable_pairs (current : snapshot) (items : snapshot)
    : list (string * Q * Q) :=
  match items with
  | [] => []
  | (metric_name, baseline_value) :: rest =>
      match lookup metric_name current with
      | Some current_value =>
          if is_number baseline_value && is_number current_value
          then (metric_name, num_of baseline_value, num_of current_value) ::
               comparable_pairs current rest
          else comparable_pairs current rest
      | None => comparable_pairs current rest
      end
  end.



(** The divisor of the ratio of one pair. *)
Definition ratio_divisor (p : string * Q * Q) : Q :=
  let '(metric_name, baseline, current) := p in
  if is_higher_worse metric_name then current else baseline.



(** [linregress] on a series that lies exactly on a line: the slope between
    the end points, a correlation of 1 and a p-value of 0. *)
Definition line_fit (x y : list Q) : LinregressResult :=
  let first := hd 0 y in
  let last := List.last y 0 in
  {| lr_slope := Qred ((last - first) / inject_Z (Z.of_nat (List.length y - 1)));
     lr_intercept := first;
     lr_rvalue := 1;
     lr_pvalue := 0;
     lr_stderr := 0 |}.

(** ** Charts *)

(** ['timestamp' in data_point] *)
Definition has_timestamp (data_point : snapshot) : bool :=
  match lookup "timestamp" data_point with
  | Some _ => true
  | None => false
  end.

(** What one chart of [generate_visualizations] shows: the historical series
    of [chart_key], the current value and the baseline when the key is in
    those snapshots, saved as [chart_key ++ "_trend.png"] in the output
    directory.  Titles and labels are not modelled and the plotting calls
    are taken to succeed. *)
Record Chart : Type := mkChart {
  chart_key : string;
  chart_values : list Q;
  chart_current : option pyval;
  chart_baseline : option pyval
}.

Definition chart_file (c : Chart) : string := chart_key c ++ "_trend.png".

(** The body of the loop over [key_metrics]: the first key of [metrics_data]
    that matches, if it has at least two points. *)
Definition chart_for (self : Detector) (metrics_data : list (string * list Q))
    (metric_key : string) : list Chart :=
  match find (fun entry => contains metric_key (lower (fst entry))) metrics_data with
  | Some (key, values) =>
      if (2 <=? List.length values)%nat
      then [ {| chart_key := key;
                chart_values := values;
                chart_current := lookup key (current_metrics self);
                chart_baseline := lookup key (baseline_metrics self) |} ]
      else []
  | None => []
  end.

Definition generate_visualizations (self : Detector) : list Chart :=
  let metrics_data := group_metrics (filter has_timestamp (historical_metrics self)) in
  flat_map (chart_for self metrics_data) key_metrics.

(** ** The command line *)

(** The [import] statements of lines 12 to 26, in order: the module and the
    names taken from it (none for a plain [import]). *)
Definition imports : list (string * list string) :=
  [ ("json", []); ("sys", []); ("os", []); ("argparse", []); ("statistics", []);
    ("smtplib", []);
    ("datetime", ["datetime"; "timedelta"]);
    ("email.mime.text", ["MimeText"]);
    ("email.mime.multipart", ["MimeMultipart"]);
    ("pathlib", ["Path"]);
    ("typing", ["Dict"; "List"; "Any"; "Optional"; "Tuple"]);
    ("numpy", []);
    ("scipy", ["stats"]);
    ("matplotlib.pyplot", []);
    ("seaborn", []) ].

(** The installed modules: for a module that can be imported, the names it
    defines. *)
Definition Library : Type := string -> option (list string).

(** One [import]: a missing module and a missing name both raise
    [ImportError] ([ModuleNotFoundError] is one). *)
Definition import_one (library : Library) (statement : string * list string)
    : result unit :=
  match library (fst statement) with
  | None => Raise ImportError
  | Some defined =>
      if forallb (fun name => existsb (String.eqb name) defined) (snd statement)
      then Ok tt else Raise ImportError
  end.

Fixpoint import_all (library : Library) (statements : list (string * list string))
    : result unit :=
  match statements with
  | [] => Ok tt
  | statement :: rest =>
      _ <- import_one library statement ;;
      import_all library rest
  end.

(** Loading the module, down to the guard of line 519. *)
Definition load_module (library : Library) : result unit := import_all library imports.

(** The state of a JSON file that holds an object when it parses. *)
Inductive json_file (A : Type) : Type :=
| Absent
| Unparsable
| Object (content : A).
Arguments Absent {A}.
Arguments Unparsable {A}.
Arguments Object {A} content.

(** The files that a run reads; of the configuration only the two sinks are
    kept, the other keys are not read by the detector. *)
Record Files : Type := mkFiles {
  config_file : json_file Config;
  baseline_file : json_file snapshot;
  current_file : json_file snapshot;
  historical_files : list file_read
}.

Record Args : Type := mkArgs {
  arg_update_baseline : bool;
  arg_generate_report : bool;
  arg_generate_charts : bool
}.

(** What [parser.parse_args()] makes of the command line: [-h] or [--help]
    prints the usage and leaves with status 0, a command line that argparse
    does not accept leaves with status 2, anything else gives the options. *)
Inductive Invocation : Type :=
| Help
| UsageError
| Options (args : Args).

(** The readings of the clock: the ISO time of the report, the ISO time of
    the alert body and the time field of the chat message. *)
Record Clock : Type := mkClock {
  report_time : string;
  alert_time : string;
  alert_stamp : string
}.

(** What the run meets outside the detector: the exception, if any, raised
    while the report is saved and printed (lines 485 to 492), the exception
    raised while one chart is plotted and saved, and whether the baseline
    file can be opened and written. *)
Record Outside : Type := mkOutside {
  save_report : string -> option exn;
  draw_chart : Chart -> option exn;
  baseline_writable : bool
}.

(** How the process ends: [sys.exit(code)] or an uncaught exception. *)
Inductive Ending : Type :=
| Exited (code : Z)
| Crashed (e : exn).

(** The exit status seen by the caller; an uncaught exception gives 1. *)
Definition process_status (e : Ending) : Z :=
  match e with
  | Exited code => code
  | Crashed _ => 1%Z
  end.

(** What a run leaves behind: the report saved, the charts saved, the
    deliveries attempted and the snapshot written to the baseline file. *)
Record Effects : Type := mkEffects {
  report_written : option string;
  charts_drawn : list Chart;
  deliveries : list Delivery;
  baseline_written : option snapshot
}.

Definition no_effects : Effects := mkEffects None [] [] None.

Definition default_config : Config := mkConfig None None.

Definition load_config (f : json_file Config) : result Config :=
  match f with
  | Absent => Ok default_config
  | Unparsable => Raise JSONDecodeError
  | Object c => Ok c
  end.

Definition load_baseline (f : json_file snapshot) : result snapshot :=
  match f with
  | Absent => Ok []
  | Unparsable => Raise JSONDecodeError
  | Object d => Ok d
  end.

(** [Exited 1] is the [sys.exit(1)] of a missing file. *)
Definition load_current_metrics (f : json_file snapshot) : Ending + snapshot :=
  match f with
  | Absent => inl (Exited 1)
  | Unparsable => inl (Crashed JSONDecodeError)
  | Object d => inr d
  end.

(** [PerformanceRegressionDetector(config)] *)
Definition new_detector (config : Config) (files : Files) : Ending + Detector :=
  match load_baseline (baseline_file files) with
  | Raise e => inl (Crashed e)
  | Ok baseline =>
      match load_current_metrics (current_file files) with
      | inl ending => inl ending
      | inr current =>
          match load_historical_metrics (historical_files files) with
          | Raise e => inl (Crashed e)
          | Ok historical => inr (mkDetector config baseline current historical)
          end
      end
  end.

(** The snapshot that [update_baseline] dumps into the baseline file; a
    failure of the write is caught and printed. *)
Definition update_baseline (outside : Outside) (self : Detector) : option snapshot :=
  if baseline_writable outside then Some (current_metrics self) else None.

(** The charts of [generate_visualizations] are plotted one after the other;
    an exception from the plotting library ends the loop and leaves the
    method. *)
Fixpoint draw_charts (outside : Outside) (charts : list Chart)
    : list Chart * option exn :=
  match charts with
  | [] => ([], None)
  | chart :: rest =>
      match draw_chart outside chart with
      | Some e => ([], Some e)
      | None =>
          let (drawn, failure) := draw_charts outside rest in
          (chart :: drawn, failure)
      end
  end.

Section Main.

(** [main] is given what the two methods that compute on the metrics return
    or raise, [detector.detect_regressions()] and
    [detector.generate_report(regressions)] at a reading of the clock: what
    is proved of [main] then holds whatever they do. *)
Variable detection : Detector -> result (list regression).
Variable reporting : Detector -> string -> list regression -> result string.

Definition main (outside : Outside) (clock : Clock) (invocation : Invocation)
    (files : Files) : Ending * Effects :=
  match invocation with
  | Help => (Exited 0, no_effects)
  | UsageError => (Exited 2, no_effects)
  | Options args =>
  match load_config (config_file files) with
  | Raise e => (Crashed e, no_effects)
  | Ok config =>
  match new_detector config files with
  | inl ending => (ending, no_effects)
  | inr detector =>
  match detection detector with
  | Raise e => (Crashed e, no_effects)
  | Ok regressions =>
  match reporting detector (report_time clock) regressions with
  | Raise e => (Crashed e, no_effects)
  | Ok report =>
  match save_report outside report with
  | Some e => (Crashed e, no_effects)
  | None =>
  let (drawn, failure) :=
    if arg_generate_charts args
    then draw_charts outside (generate_visualizations detector)
    else ([], None) in
  match failure with
  | Some e => (Crashed e, mkEffects (Some report) drawn [] None)
  | None =>
      (Exited (exit_status regressions),
       {| report_written := Some report;
          charts_drawn := drawn;
          deliveries :=
            if is_empty regressions then []
            else send_alert detector (alert_time clock) (alert_stamp clock) regressions;
          baseline_written :=
            if arg_update_baseline args
            then update_baseline outside detector else None |})
  end end end end end end
  end.

(** A run of the script: the module is loaded, then line 520 calls [main]. *)
Definition run_script (library : Library) (outside : Outside) (clock : Clock)
    (invocation : Invocation) (files : Files) : Ending * Effects :=
  match load_module library with
  | Raise e => (Crashed e, no_effects)
  | Ok _ => main outside clock invocation files
  end.

End Main.

(** ** Sort keys *)

(** The sort key of a snapshot whose time stamp is a string or is absent. *)
Definition timestamp_of (d : snapshot) : string :=
  match lookup "timestamp" d with
  | Some (PStr s) => s
  | _ => ""
  end.

Definition number_key (x : pyval * snapshot) : Prop := is_number (fst x) = true.

(** A snapshot whose time stamp is a number. *)
Definition number_timestamp (d : snapshot) : bool :=
  match lookup "timestamp" d with
  | Some v => is_number v
  | None => false
  end.

(** A numeric value that is zero. *)
Definition zero_number (v : pyval) : bool := is_number v && Qeq_bool (num_of v) 0.

(** A snapshot whose sort key is a string: the ['timestamp'] is a string or
    is absent (the key is then the empty string). *)
Definition string_timestamp (d : snapshot) : bool :=
  match lookup "timestamp" d with
  | Some (PStr _) | None => true
  | Some _ => false
  end.

(** A snapshot paired with its sort key. *)
Definition keyed (d : snapshot) : pyval * snapshot :=
  (match lookup "timestamp" d with Some t => t | None => PStr "" end, d).

Definition string_key (x : pyval * snapshot) : Prop :=
  exists s, fst x = PStr s.

(** The severities that [send_alert] reports. *)
Definition is_alert (r : regression) : bool :=
  has_severity high r || has_severity critical r.

(** * The arithmetic as the interpreter carries it out

    The definitions above read the numbers as exact rationals.  This module
    embeds the baseline comparison and the score once more with the numbers
    of the interpreter: [int] is unbounded and exact, [float] is IEEE
    binary64 with round-to-nearest-even, and the conversions and divisions
    raise as in Python. *)

Module Binary64.

(** ** Binary64 values *)

(** A float: a finite value, given by the rational it stands for, an
    infinity with its sign, or a NaN.  The sign of a zero is not kept: the
    code never divides by a zero (Python raises) and compares its other
    results with constants only. *)
Inductive f64 : Type :=
| Finite (q : Q)
| Infinite (negative : bool)
| NotANumber.

(** The binade of [q > 0]: the [e] with [2^e <= q < 2^(e+1)]. *)
Definition binade (q : Q) : Z :=
  if Qle_bool 1 q then Z.log2 (Qfloor q) else (- Z.log2_up (Qceiling (/ q)))%Z.

(** The exponent of the unit in the last place at [q > 0]: 52 below the
    binade for a normal number, -1074 in the subnormal range. *)
Definition ulp_exponent (q : Q) : Z := (Z.max (binade q) (-1022) - 52)%Z.

(** The nearest multiple of the unit in the last place, ties to even. *)
Definition round_magnitude (q : Q) : Q :=
  inject_Z (round_half_even (q / 2 ^ ulp_exponent q)) * 2 ^ ulp_exponent q.

(** [q < 0] *)
Definition negative_sign (q : Q) : bool := negb (Qle_bool 0 q).

(** Rounding a real number to binary64; a magnitude that rounds to [2^1024]
    or more overflows. *)
Definition round64 (q : Q) : f64 :=
  if Qeq_bool q 0 then Finite 0
  else
    let r := round_magnitude (Qabs q) in
    if Qle_bool (2 ^ 1024) r then Infinite (negative_sign q)
    else Finite (Qred (if negative_sign q then - r else r)).

Definition is_zero (x : f64) : bool :=
  match x with
  | Finite q => Qeq_bool q 0
  | _ => false
  end.

Definition fl_sub (x y : f64) : f64 :=
  match x, y with
  | NotANumber, _ | _, NotANumber => NotANumber
  | Finite a, Finite b => round64 (a - b)
  | Finite _, Infinite s => Infinite (negb s)
  | Infinite s, Finite _ => Infinite s
  | Infinite s, Infinite t => if Bool.eqb s t then NotANumber else Infinite s
  end.

Definition fl_add (x y : f64) : f64 :=
  match x, y with
  | NotANumber, _ | _, NotANumber => NotANumber
  | Finite a, Finite b => round64 (a + b)
  | Finite _, Infinite s | Infinite s, Finite _ => Infinite s
  | Infinite s, Infinite t => if Bool.eqb s t then Infinite s else NotANumber
  end.

Definition fl_mul (x y : f64) : f64 :=
  match x, y with
  | NotANumber, _ | _, NotANumber => NotANumber
  | Finite a, Finite b => round64 (a * b)
  | Finite a, Infinite s | Infinite s, Finite a =>
      if Qeq_bool a 0 then NotANumber else Infinite (xorb s (negative_sign a))
  | Infinite s, Infinite t => Infinite (xorb s t)
  end.

(** Division by a divisor that is not a zero. *)
Definition fl_div (x y : f64) : f64 :=
  match x, y with
  | NotANumber, _ | _, NotANumber => NotANumber
  | Finite a, Finite b => round64 (a / b)
  | Finite _, Infinite _ => Finite 0
  | Infinite s, Finite b => Infinite (xorb s (negative_sign b))
  | Infinite _, Infinite _ => NotANumber
  end.

(** [x > c], [x >= c] and [x < c] against a finite constant; every
    comparison with a NaN is false. *)
Definition gtb (x : f64) (c : Q) : bool :=
  match x with
  | Finite q => negb (Qle_bool q c)
  | Infinite s => negb s
  | NotANumber => false
  end.

Definition geb (x : f64) (c : Q) : bool :=
  match x with
  | Finite q => Qle_bool c q
  | Infinite s => negb s
  | NotANumber => false
  end.

Definition ltb (x : f64) (c : Q) : bool :=
  match x with
  | Finite q => negb (Qle_bool c q)
  | Infinite s => s
  | NotANumber => false
  end.

(** [x <= y]; false when one of them is a NaN. *)
Definition leb (x y : f64) : bool :=
  match x, y with
  | NotANumber, _ | _, NotANumber => false
  | Infinite true, _ => true
  | _, Infinite false => true
  | Finite a, Finite b => Qle_bool a b
  | _, _ => false
  end.

(** ** Python numbers *)

(** The values that pass [isinstance(v, (int, float))]. *)
Inductive pynum : Type :=
| PyBool (b : bool)
| PyInt (z : Z)
| PyFloat (x : f64).

(** The integer behind an [int] or a [bool]. *)
Definition int_value (n : pynum) : option Z :=
  match n with
  | PyBool b => Some (if b then 1 else 0)%Z
  | PyInt z => Some z
  | PyFloat _ => None
  end.

(** [float(z)]: correctly rounded, [OverflowError] beyond the range. *)
Definition float_of_int (z : Z) : result f64 :=
  match round64 (inject_Z z) with
  | Infinite _ => Raise OverflowError
  | x => Ok x
  end.

(** The operand of a float operation. *)
Definition to_float (n : pynum) : result f64 :=
  match n with
  | PyFloat x => Ok x
  | PyBool b => Ok (Finite (if b then 1 else 0))
  | PyInt z => float_of_int z
  end.

(** [a - b]: exact on two integers; otherwise both operands are converted
    and the floats subtracted. *)
Definition sub (a b : pynum) : result pynum :=
  match int_value a, int_value b with
  | Some x, Some y => Ok (PyInt (x - y))
  | _, _ =>
      x <- to_float a ;;
      y <- to_float b ;;
      Ok (PyFloat (fl_sub x y))
  end.

(** [a / b]: on two integers the quotient is rounded once, and it raises
    [OverflowError] when it is too large for a float; otherwise both
    operands are converted, then a zero divisor raises. *)
Definition truediv (a b : pynum) : result f64 :=
  match int_value a, int_value b with
  | Some x, Some y =>
      if (y =? 0)%Z then Raise ZeroDivisionError
      else match round64 (inject_Z x / inject_Z y) with
           | Infinite _ => Raise OverflowError
           | q => Ok q
           end
  | _, _ =>
      x <- to_float a ;;
      y <- to_float b ;;
      if is_zero y then Raise ZeroDivisionError else Ok (fl_div x y)
  end.

(** ** JSON values *)

Local Unset Elimination Schemes.
Inductive value : Type :=
| VNum (n : pynum)
| VNone
| VStr (s : string)
| VList (l : list value)
| VDict (items : list (string * value)).
Local Set Elimination Schemes.

Definition snapshot : Type := list (string * value).

(** ** The classifier *)

(** [str.lower()] on the UTF-8 text of a name, as far as an ASCII keyword
    can tell: besides [A] to [Z] only U+212A (Kelvin sign, lowered to [k])
    and U+0130 (lowered to [i] and U+0307) give an ASCII letter; every other
    character is kept, where [str.lower()] gives characters outside ASCII. *)
Fixpoint lower (s : string) : string :=
  match s with
  | String "226" (String "132" (String "170" rest)) => String "k" (lower rest)
  | String "196" (String "176" rest) =>
      String "i" (String "204" (String "135" (lower rest)))
  | String c rest => String (lower_ascii c) (lower rest)
  | EmptyString => EmptyString
  end.

Definition is_higher_worse (metric_name : string) : bool :=
  existsb (fun keyword => contains keyword (lower metric_name)) higher_worse_keywords.

Definition _calculate_severity (change_percent : f64) : Severity :=
  if geb change_percent 50 then critical
  else if geb change_percent 30 then high
  else if geb change_percent 20 then medium
  else low.

(** [f"{x:.<digits>f}"] on a float *)
Definition format_float (digits : nat) (x : f64) : string :=
  match x with
  | Finite q => format_fixed digits q
  | Infinite false => "inf"
  | Infinite true => "-inf"
  | NotANumber => "nan"
  end.

(** ** The baseline comparison *)

(** A [baseline_comparison] regression. *)
Record regression : Type := mkRegression {
  metric : string;
  baseline : pynum;
  current : pynum;
  change_percent : f64;
  severity : Severity;
  description : string
}.

(** The expression of lines 105 and 117,
    [((current - baseline) / baseline) * 100] when higher is worse and
    [((baseline - current) / baseline) * 100] otherwise. *)
Definition change_percent_of (metric_name : string) (baseline current : pynum)
    : result f64 :=
  difference <- (if is_higher_worse metric_name
                 then sub current baseline else sub baseline current) ;;
  quotient <- truediv difference baseline ;;
  Ok (fl_mul quotient (Finite 100)).

Definition _check_metric_regression (metric_name : string) (baseline current : pynum)
    : result (option regression) :=
  change_percent <- change_percent_of metric_name baseline current ;;
  if gtb change_percent REGRESSION_THRESHOLD
  then Ok (Some {| metric := metric_name;
                   baseline := baseline;
                   current := current;
                   change_percent := change_percent;
                   severity := _calculate_severity change_percent;
                   description := metric_name ++ " degraded by " ++
                                  format_float 1 change_percent ++
                                  "% from baseline" |})
  else Ok None.

Record Detector : Type := mkDetector {
  baseline_metrics : snapshot;
  current_metrics : snapshot
}.

(** The first loop of [detect_regressions], over the items of the baseline. *)
Fixpoint compare_with_baseline (current : snapshot) (items : snapshot)
    : result (list regression) :=
  match items with
  | [] => Ok []
  | (metric_name, baseline_value) :: rest =>
      found <-
        match lookup metric_name current, baseline_value with
        | Some (VNum current_value), VNum baseline_number =>
            _check_metric_regression metric_name baseline_number current_value
        | _, _ => Ok None
        end ;;
      others <- compare_with_baseline current rest ;;
      Ok (match found with
          | Some r => r :: others
          | None => others
          end)
  end.

(** ** The performance score *)

(** The ratio of lines 266 to 269. *)
Definition ratio_of (metric_name : string) (baseline current : pynum) : result f64 :=
  if is_higher_worse metric_name then truediv baseline current
  else truediv current baseline.

(** [min(100, max(0, ratio * 100))]: [max] keeps its first argument unless
    the second is greater, [min] unless the second is less. *)
Definition clamp (ratio : f64) : pynum :=
  let scaled := fl_mul ratio (Finite 100) in
  if gtb scaled 0 then (if ltb scaled 100 then PyFloat scaled else PyInt 100)
  else PyInt 0.

Fixpoint collect_scores (current : snapshot) (items : snapshot) : result (list pynum) :=
  match items with
  | [] => Ok []
  | (metric_name, baseline_value) :: rest =>
      score <-
        match lookup metric_name current, baseline_value with
        | Some (VNum current_value), VNum baseline_number =>
            ratio <- ratio_of metric_name baseline_number current_value ;;
            Ok (Some (clamp ratio))
        | _, _ => Ok None
        end ;;
      others <- collect_scores current rest ;;
      Ok (match score with
          | Some s => s :: others
          | None => others
          end)
  end.

(** The rational that a finite number stands for. *)
Definition exact_value (n : pynum) : option Q :=
  match n with
  | PyBool b => Some (if b then 1 else 0)
  | PyInt z => Some (inject_Z z)
  | PyFloat (Finite q) => Some q
  | PyFloat _ => None
  end.

Definition is_finite (n : pynum) : bool :=
  match exact_value n with
  | Some _ => true
  | None => false
  end.

Definition is_int (n : pynum) : bool :=
  match n with
  | PyFloat _ => false
  | _ => true
  end.

Definition exact_sum (data : list pynum) : Q :=
  Qsum (map (fun n => match exact_value n with Some q => q | None => 0 end) data).

(** The sum of the infinities and NaNs of the data. *)
Definition special_sum (data : list pynum) : f64 :=
  fold_left (fun total n => match n with
                            | PyFloat (Finite _) => total
                            | PyFloat x => fl_add total x
                            | _ => total
                            end) data (Finite 0).

(** [statistics.mean]: the finite data are summed as exact fractions and the
    mean is converted once, to an [int] when the data are integers and the
    mean is whole, to a float otherwise; an infinity or a NaN among the data
    is the sum. *)
Definition mean (data : list pynum) : result pynum :=
  match data with
  | [] => Raise StatisticsError
  | _ =>
      let n := inject_Z (Z.of_nat (List.length data)) in
      if forallb is_finite data then
        let average := Qred (exact_sum data / n) in
        if forallb is_int data && Pos.eqb (Qden average) 1
        then Ok (PyInt (Qnum average))
        else match round64 average with
             | Infinite _ => Raise OverflowError
             | x => Ok (PyFloat x)
             end
      else Ok (PyFloat (fl_div (special_sum data) (Finite n)))
  end.

(** [int(x)] *)
Definition int_of_num (n : pynum) : result Z :=
  match n with
  | PyBool b => Ok (if b then 1 else 0)%Z
  | PyInt z => Ok z
  | PyFloat (Finite q) => Ok (int_of q)
  | PyFloat (Infinite _) => Raise OverflowError
  | PyFloat NotANumber => Raise ValueError
  end.

Definition _calculate_performance_score (self : Detector) : result Z :=
  if is_empty (current_metrics self) || is_empty (baseline_metrics self) then Ok 50%Z
  else
    scores <- collect_scores (current_metrics self) (baseline_metrics self) ;;
    if is_empty scores then Ok 50%Z
    else average <- mean scores ;; int_of_num average.

(** ** Auxiliary notions *)

(** The metrics that both loops work on: the items of the baseline with a
    numeric value whose name has a numeric value in the current metrics. *)
Fixpoint comparable_pairs (current : snapshot) (items : snapshot)
    : list (string * pynum * pynum) :=
  match items with
  | [] => []
  | (metric_name, baseline_value) :: rest =>
      match lookup metric_name current, baseline_value with
      | Some (VNum current_value), VNum baseline_number =>
          (metric_name, baseline_number, current_value) ::
          comparable_pairs current rest
      | _, _ => comparable_pairs current rest
      end
  end.

(** The number is a zero: [0], [False], [0.0]. *)
Definition zero_number (n : pynum) : bool :=
  match n with
  | PyBool b => negb b
  | PyInt z => (z =? 0)%Z
  | PyFloat x => is_zero x
  end.

(** The divisor of the ratio of a pair. *)
Definition ratio_divisor (p : string * pynum * pynum) : pynum :=
  let '(metric_name, baseline_number, current_value) := p in
  if is_higher_worse metric_name then current_value else baseline_number.

(** The rational of a finite number, 0 for an infinity and a NaN. *)
Definition rational_of (n : pynum) : Q :=
  match exact_value n with
  | Some q => q
  | None => 0
  end.

(** [x <= y] on numbers, by value. *)
Definition num_le (x y : pynum) : Prop :=
  match x, y with
  | PyFloat a, PyFloat b => leb a b = true
  | PyFloat _, _ | _, PyFloat _ => False
  | _, _ => rational_of x <= rational_of y
  end.

(** A finite number above zero. *)
Definition positive_number (n : pynum) : Prop :=
  match exact_value n with
  | Some q => 0 < q
  | None => False
  end.

(** A finite number that is not a zero. *)
Definition steady_number (n : pynum) : bool := is_finite n && negb (zero_number n).

Definition steady_item (item : string * value) : bool :=
  match snd item with
  | VNum n => steady_number n
  | _ => true
  end.

Definition numeric_item (item : string * value) : bool :=
  match snd item with
  | VNum _ => true
  | _ => false
  end.

End Binary64.

(** ** Sample inputs *)

Definition no_sinks : Config := mkConfig None None.

(** Ten snapshots in which [memory_usage_mb] rises by 10 per snapshot from
    100, and [cpu_usage] rises likewise from 10 but is absent from the last
    snapshot. *)
Definition sample_point (i : Z) : snapshot :=
  ("timestamp", PStr ("2026-01-1" ++ str_of_Z i)) ::
  ("memory_usage_mb", PInt (100 + 10 * i)) ::
  (if (i <? 9)%Z then [("cpu_usage", PInt (10 + 10 * i))] else []).

Definition sample_history : list snapshot :=
  map sample_point [0; 1; 2; 3; 4; 5; 6; 7; 8; 9]%Z.

Definition sample_detector : Detector :=
  mkDetector no_sinks [("cpu_usage", PInt 50)] [("cpu_usage", PInt 100)] sample_history.

(** Two regressions of the same severity. *)
Definition sample_zeta : regression :=
  baseline_regression "zeta_latency" 100 125 (Fin 25).

Definition sample_alpha : regression :=
  baseline_regression "alpha_latency" 200 250 (Fin 25).

Definition sample_critical (i : nat) : regression :=
  baseline_regression ("latency_" ++ str_of_nat i) 100 200 (Fin 100).

(** Seven critical regressions and one high one. *)
Definition sample_alerts : list regression :=
  baseline_regression "throughput" 100 65 (Fin 35) :: map sample_critical (seq 1 7).

(** ** Auxiliary notions *)

(** Ten points on a rising line. *)
Definition rising_series : list Q :=
  map inject_Z [100; 110; 120; 130; 140; 150; 160; 170; 180; 190]%Z.

(** The threshold is cleared and the severity is that of the percentage. *)
Definition well_formed (r : regression) : Prop :=
  num_gtb (change_percent r) REGRESSION_THRESHOLD = true /\
  severity r = _calculate_severity (change_percent r).

(** Ten points on a rising line whose first five average to zero. *)
Definition zero_mean_series : list Q :=
  map inject_Z [-2; -1; 0; 1; 2; 3; 4; 5; 6; 7]%Z.

(** ['key' in self.config] *)
Definition configured {A : Type} (sink : option A) : bool :=
  match sink with
  | Some _ => true
  | None => false
  end.

(** The number of sinks of a configuration. *)
Definition sink_count (c : Config) : nat :=
  (if configured (email c) then 1 else 0) +
  (if configured (slack_webhook c) then 1 else 0).

Definition delivery_subject (d : Delivery) : string :=
  match d with
  | EmailDelivery _ subject _ => subject
  | SlackDelivery _ message => message_text message
  end.

Definition is_email (d : Delivery) : bool :=
  match d with
  | EmailDelivery _ _ _ => true
  | SlackDelivery _ _ => false
  end.

(** The key of a pair is the string time stamp of its snapshot. *)
Definition key_ok (x : pyval * snapshot) : Prop := fst x = PStr (timestamp_of (snd x)).

(** The ascending order of the time stamps, on keyed pairs and on
    snapshots. *)
Definition pair_le (x y : pyval * snapshot) : Prop :=
  String.leb (timestamp_of (snd x)) (timestamp_of (snd y)) = true.

Definition snapshot_le (a b : snapshot) : Prop :=
  String.leb (timestamp_of a) (timestamp_of b) = true.

(** The snapshots whose sort key is [k]. *)
Definition has_key (k : string) (d : snapshot) : bool := String.eqb (timestamp_of d) k.

(** A JSON document that is an object. *)
Definition is_dict (v : pyval) : bool :=
  match v with
  | PDict _ => true
  | _ => false
  end.

(** No configuration, a baseline and a current snapshot, no history. *)
Definition sample_files : Files :=
  mkFiles Absent (Object [("cpu_usage", PInt 50)]) (Object [("cpu_usage", PInt 100)]) [].

Definition sample_clock : Clock :=
  mkClock "2026-01-20T10:00:00" "2026-01-20T10:00:01" "2026-01-20 10:00:01".

(** A library in which every import of the script resolves, as when a
    package on the path defines the two names of lines 19 and 20. *)
Definition resolving_library : Library :=
  fun module_name =>
    Some ["datetime"; "timedelta"; "MimeText"; "MimeMultipart"; "Path";
          "Dict"; "List"; "Any"; "Optional"; "Tuple"; "stats"].

(** The standard library and the packages the script needs, as they are
    distributed: [email.mime.text] defines [MIMEText] and
    [email.mime.multipart] defines [MIMEMultipart]. *)
Definition standard_library : Library :=
  fun module_name =>
    if String.eqb module_name "email.mime.text" then Some ["MIMEText"]
    else if String.eqb module_name "email.mime.multipart" then Some ["MIMEMultipart"]
    else resolving_library module_name.

(** Nothing fails outside the detector. *)
Definition calm : Outside := mkOutside (fun _ => None) (fun _ => None) true.

(** A run whose score divides by zero although no metric regressed. *)
Definition zero_divisor_files : Files :=
  mkFiles Absent (Object [("disk_errors", PInt 3)]) (Object [("disk_errors", PInt 0)]) [].


(** A run without regression. *)
Definition steady_files : Files :=
  mkFiles Absent (Object [("cpu_usage", PInt 100)]) (Object [("cpu_usage", PInt 100)]) [].

(** * Properties *)

(** ** Comparisons *)

Lemma Qltb_lt (a b : Q) : Qltb a b = true <-> a < b.
Proof.
  unfold Qltb. rewrite negb_true_iff. split; intro H.
  - apply Qnot_le_lt. intro Hle. apply Qle_bool_iff in Hle. congruence.
  - destruct (Qle_bool b a) eqn:E; [| reflexivity].
    apply Qle_bool_iff in E. exfalso. exact (Qlt_not_le _ _ H E).
Qed.


Lemma Qle_bool_false (a b : Q) : Qle_bool a b = false <-> b < a.
Proof.
  rewrite <- Qltb_lt. unfold Qltb. rewrite negb_true_iff. reflexivity.
Qed.


Lemma Qle_bool_Qred_l (c q : Q) : Qle_bool (Qred q) c = Qle_bool q c.
Proof.
  destruct (Qle_bool q c) eqn:E.
  - apply Qle_bool_iff. apply Qle_bool_iff in E. now rewrite Qred_correct.
  - apply Qle_bool_false. apply Qle_bool_false in E. now rewrite Qred_correct.
Qed.

Lemma truediv_zero (a b : Q) : b == 0 -> truediv a b = Raise ZeroDivisionError.
Proof.
  intro H. unfold truediv. apply Qeq_bool_iff in H. now rewrite H.
Qed.

Lemma truediv_nonzero (a b : Q) : ~ b == 0 -> truediv a b = Ok (a / b).
Proof.
  intro H. unfold truediv. destruct (Qeq_bool b 0) eqn:E; [| reflexivity].
  apply Qeq_bool_iff in E. contradiction.
Qed.

(** ** Severity *)

Lemma severity_Fin (q : Q) :
  _calculate_severity (Fin q) =
  if Qle_bool 50 q then critical
  else if Qle_bool 30 q then high
  else if Qle_bool 20 q then medium
  else low.
Proof. reflexivity. Qed.


Ltac decide_bounds :=
  repeat match goal with
         | H : Qle_bool _ _ = true |- _ => apply Qle_bool_iff in H
         | H : Qle_bool _ _ = false |- _ => apply Qle_bool_false in H
         end.

(** The severity is monotone on all numbers, [inf] included. *)
Lemma severity_monotone_number (x y : number) :
  num_leb x y = true ->
  (severity_rank (_calculate_severity x) <= severity_rank (_calculate_severity y))%nat.
Proof.
  destruct x as [a | |], y as [b | |]; simpl; try discriminate; intro Hle.
  - rewrite !severity_Fin.
    destruct (Qle_bool 50 a) eqn:E50, (Qle_bool 30 a) eqn:E30, (Qle_bool 20 a) eqn:E20,
             (Qle_bool 50 b) eqn:F50, (Qle_bool 30 b) eqn:F30, (Qle_bool 20 b) eqn:F20;
      decide_bounds; simpl; try lia; exfalso; lra.
  - change (_calculate_severity Inf) with critical.
    destruct (_calculate_severity (Fin a)); simpl; lia.
  - apply Nat.le_refl.
Qed.

(** C5. Above the 15% gate the severity is a function with the four buckets
    [>= 50] critical, [30, 50) high, [20, 30) medium and (15, 20) low; it is
    monotone in the percentage, and the boundary values 20, 30 and 50 fall in
    the higher bucket. *)
Theorem severity_buckets_monotone (q q' : Q) :
  REGRESSION_THRESHOLD < q -> q <= q' ->
  (_calculate_severity (Fin q) = critical <-> 50 <= q) /\
  (_calculate_severity (Fin q) = high <-> 30 <= q /\ q < 50) /\
  (_calculate_severity (Fin q) = medium <-> 20 <= q /\ q < 30) /\
  (_calculate_severity (Fin q) = low <-> REGRESSION_THRESHOLD < q /\ q < 20) /\
  (severity_rank (_calculate_severity (Fin q)) <=
   severity_rank (_calculate_severity (Fin q')))%nat /\
  _calculate_severity (Fin 20) = medium /\
  _calculate_severity (Fin 30) = high /\
  _calculate_severity (Fin 50) = critical /\
  _calculate_severity Inf = critical.
Proof.
  unfold REGRESSION_THRESHOLD. intros Hgate Hle.
  rewrite !severity_Fin.
  destruct (Qle_bool 50 q) eqn:E50, (Qle_bool 30 q) eqn:E30, (Qle_bool 20 q) eqn:E20,
           (Qle_bool 50 q') eqn:F50, (Qle_bool 30 q') eqn:F30, (Qle_bool 20 q') eqn:F20;
    decide_bounds;
    repeat split; intros; simpl;
    try discriminate; try lia; try lra;
    try (exfalso; lra);
    try match goal with H : _ /\ _ |- _ => destruct H; exfalso; lra end.
Qed.

Lemma severity_buckets_monotone_witness :
  REGRESSION_THRESHOLD < 25 /\ 25 <= 40 /\
  _calculate_severity (Fin 25) = medium /\
  (severity_rank (_calculate_severity (Fin 25)) <=
   severity_rank (_calculate_severity (Fin 40)))%nat.
Proof.
  assert (Hgate : REGRESSION_THRESHOLD < 25) by reflexivity.
  assert (Hle : 25 <= 40) by (intro H; discriminate H).
  pose proof (severity_buckets_monotone 25 40 Hgate Hle) as H.
  split; [exact Hgate |]. split; [exact Hle |].
  split.
  - apply (proj1 (proj2 (proj2 H))). split; [intro H0; discriminate H0 | reflexivity].
  - exact (proj1 (proj2 (proj2 (proj2 (proj2 H))))).
Defined.

(** ** The baseline comparison *)

Lemma num_gtb_Qred (q c : Q) : num_gtb (Fin (Qred q)) c = Qltb c q.
Proof.
  unfold Qltb. simpl. now rewrite Qle_bool_Qred_l.
Qed.

(** With a non-zero baseline the check computes the formula of the
    specification, gates it at the threshold and records it. *)
Lemma check_metric_regression_nonzero (metric_name : string) (baseline current : Q) :
  ~ baseline == 0 ->
  _check_metric_regression metric_name baseline current =
  Ok (if Qltb REGRESSION_THRESHOLD (change_percent_spec metric_name baseline current)
      then Some (baseline_regression metric_name baseline current
                   (Fin (Qred (change_percent_spec metric_name baseline current))))
      else None).
Proof.
  intro Hb. unfold _check_metric_regression, change_percent_spec.
  destruct (is_higher_worse metric_name);
    rewrite (truediv_nonzero _ _ Hb); cbn [bind]; rewrite num_gtb_Qred;
    match goal with |- context [Qltb ?a ?b] => destruct (Qltb a b) end; reflexivity.
Qed.

Lemma check_metric_regression_zero (metric_name : string) (baseline current : Q) :
  baseline == 0 ->
  _check_metric_regression metric_name baseline current = Raise ZeroDivisionError.
Proof.
  intro Hb. unfold _check_metric_regression.
  destruct (is_higher_worse metric_name); rewrite (truediv_zero _ _ Hb); reflexivity.
Qed.







(** ** Monotonicity of the percentage *)

Lemma change_percent_higher_worse (metric_name : string) (baseline current : Q) :
  is_higher_worse metric_name = true ->
  change_percent_spec metric_name baseline current ==
  (current - baseline) * (/ baseline * 100).
Proof.
  intro H. unfold change_percent_spec. rewrite H. unfold Qdiv. ring.
Qed.


Lemma percent_factor_pos (baseline : Q) : 0 < baseline -> 0 < / baseline * 100.
Proof.
  intro H. apply Qmult_lt_0_compat; [now apply Qinv_lt_0_compat | reflexivity].
Qed.

Lemma percent_factor_neg (baseline : Q) : baseline < 0 -> / baseline * 100 < 0.
Proof.
  intro H.
  assert (Hopp : 0 < / (- baseline) * 100).
  { apply percent_factor_pos. lra. }
  assert (Heq : / (- baseline) * 100 == - (/ baseline * 100)).
  { assert (Hnz : ~ baseline == 0) by lra. field. exact Hnz. }
  rewrite Heq in Hopp. lra.
Qed.





(** With a negative baseline the percentage of a higher-is-worse metric
    falls as the current value rises. *)
Lemma change_percent_negative_baseline (metric_name : string)
    (baseline current1 current2 : Q) :
  is_higher_worse metric_name = true -> baseline < 0 -> current1 < current2 ->
  change_percent_spec metric_name baseline current2 <
  change_percent_spec metric_name baseline current1.
Proof.
  intros Hdir Hneg Hlt.
  pose proof (percent_factor_neg baseline Hneg) as Hk.
  rewrite !(change_percent_higher_worse _ _ _ Hdir).
  assert (H : (current1 - baseline) * (- (/ baseline * 100)) <
              (current2 - baseline) * (- (/ baseline * 100))).
  { apply Qmult_lt_compat_r; lra. }
  lra.
Qed.

(** ** The performance score *)










Lemma collect_scores_exn (current items : snapshot) (e : exn) :
  collect_scores current items = Raise e -> e = ZeroDivisionError.
Proof.
  induction items as [| [name bv] rest IH]; simpl; [discriminate |].
  destruct (lookup name current) as [cv |]; cbn [bind].
  - destruct (is_number bv && is_number cv); cbn [bind].
    + assert (Hdiv : forall a b e', truediv a b = Raise e' -> e' = ZeroDivisionError).
      { intros a b e'. unfold truediv. destruct (Qeq_bool b 0); congruence. }
      destruct (is_higher_worse name).
      * destruct (truediv (num_of bv) (num_of cv)) eqn:E; cbn [bind].
        -- destruct (collect_scores current rest); cbn [bind]; [discriminate |].
           intro H. injection H as <-. now apply IH.
        -- intro H. injection H as <-. exact (Hdiv _ _ _ E).
      * destruct (truediv (num_of cv) (num_of bv)) eqn:E; cbn [bind].
        -- destruct (collect_scores current rest); cbn [bind]; [discriminate |].
           intro H. injection H as <-. now apply IH.
        -- intro H. injection H as <-. exact (Hdiv _ _ _ E).
    + destruct (collect_scores current rest); cbn [bind]; [discriminate |].
      intro H. injection H as <-. now apply IH.
  - destruct (collect_scores current rest); cbn [bind]; [discriminate |].
    intro H. injection H as <-. now apply IH.
Qed.





(** ** Trend analysis *)

Lemma group_metrics_flat (historical : list snapshot) (acc : list (string * list Q)) :
  fold_left group_data_point historical acc =
  fold_left group_step (List.concat historical) acc.
Proof.
  revert acc. induction historical as [| dp rest IH]; intro acc; [reflexivity |].
  cbn [fold_left List.concat]. rewrite fold_left_app, IH. reflexivity.
Qed.

Lemma lookup_dict_append (m k : string) (v : Q) (d : list (string * list Q)) :
  lookup m (dict_append k v d) =
  if String.eqb m k
  then Some match lookup m d with
            | Some vs => (vs ++ [v])%list
            | None => [v]
            end
  else lookup m d.
Proof.
  induction d as [| [k' vs] d IH]; simpl.
  - destruct (String.eqb m k); reflexivity.
  - destruct (String.eqb k k') eqn:Ekk'; simpl.
    + apply String.eqb_eq in Ekk'. subst k'.
      destruct (String.eqb m k); reflexivity.
    + destruct (String.eqb m k') eqn:Emk'.
      * apply String.eqb_eq in Emk'. subst k'.
        rewrite String.eqb_sym in Ekk'. now rewrite Ekk'.
      * exact IH.
Qed.

Lemma dict_append_keys (k : string) (v : Q) (d : list (string * list Q)) :
  NoDup (map fst d) -> NoDup (map fst (dict_append k v d)) /\
  (forall k', In k' (map fst (dict_append k v d)) -> k' = k \/ In k' (map fst d)).
Proof.
  induction d as [| [k' vs] d IH]; simpl; intro Hnd.
  - split; [repeat constructor; intros [] | intros k' [H | []]; auto].
  - inversion Hnd as [| x xs Hnot Hrest]; subst.
    destruct (String.eqb k k') eqn:E; simpl.
    + split; [exact Hnd | intros k'' H; right; exact H].
    + destruct (IH Hrest) as [IHnd IHin]. split.
      * constructor; [| exact IHnd].
        intro Hin. destruct (IHin _ Hin) as [-> | Hold]; [| contradiction].
        rewrite String.eqb_refl in E. discriminate.
      * intros k'' [-> | Hin]; [right; left; reflexivity |].
        destruct (IHin _ Hin); [left | right; right]; assumption.
Qed.

Lemma group_step_keys (items : snapshot) (acc : list (string * list Q)) :
  NoDup (map fst acc) -> NoDup (map fst (fold_left group_step items acc)).
Proof.
  revert acc. induction items as [| [k v] rest IH]; intros acc Hnd; [exact Hnd |].
  cbn [fold_left]. apply IH. unfold group_step.
  destruct (negb (String.eqb k "timestamp") && is_number v); [| exact Hnd].
  exact (proj1 (dict_append_keys _ _ _ Hnd)).
Qed.

(** The list stored under [m] after the grouping loop has run over [items]. *)
Lemma lookup_group_step (m : string) (items : snapshot) (acc : list (string * list Q)) :
  lookup m (fold_left group_step items acc) =
  match lookup m acc with
  | Some vs => Some (vs ++ series_of_items m items)%list
  | None => match series_of_items m items with
            | [] => None
            | s => Some s
            end
  end.
Proof.
  revert acc. induction items as [| [k v] rest IH]; intro acc.
  - cbn [fold_left]. unfold series_of_items. simpl.
    destruct (lookup m acc); [now rewrite app_nil_r | reflexivity].
  - cbn [fold_left]. rewrite IH. unfold group_step, series_of_items, series_item.
    cbn [filter fst snd].
    destruct (negb (String.eqb k "timestamp") && is_number v) eqn:Enum.
    + rewrite lookup_dict_append. rewrite (String.eqb_sym k m).
      rewrite <- andb_assoc, Enum, andb_true_r.
      destruct (String.eqb m k); [| reflexivity].
      cbn [map snd]. destruct (lookup m acc); [now rewrite <- app_assoc | reflexivity].
    + rewrite <- andb_assoc, Enum, andb_false_r. reflexivity.
Qed.

Lemma In_lookup {A : Type} (k : string) (v : A) (d : list (string * A)) :
  NoDup (map fst d) -> In (k, v) d -> lookup k d = Some v.
Proof.
  induction d as [| [k' v'] d IH]; simpl; intros Hnd Hin; [contradiction |].
  inversion Hnd as [| x xs Hnot Hrest]; subst.
  destruct Hin as [Heq | Hin].
  - injection Heq as -> ->. now rewrite String.eqb_refl.
  - destruct (String.eqb k k') eqn:E.
    + apply String.eqb_eq in E. subst k'. exfalso. apply Hnot.
      change k with (fst (k, v)). now apply in_map.
    + now apply IH.
Qed.

(** Every list of the dict [metric_types] is the series of its metric. *)
Lemma group_metrics_series (historical : list snapshot) (m : string) (values : list Q) :
  In (m, values) (group_metrics historical) -> values = metric_series m historical.
Proof.
  intro Hin. unfold group_metrics in Hin. rewrite group_metrics_flat in Hin.
  apply In_lookup in Hin; [| apply group_step_keys; constructor].
  rewrite lookup_group_step in Hin. cbn [lookup] in Hin.
  unfold metric_series.
  destruct (series_of_items m (List.concat historical)); congruence.
Qed.

Section TrendProperties.

Variable linregress : list Q -> list Q -> LinregressResult.

Lemma analyze_trend_shape (metric_name : string) (values : list Q) (r : regression) :
  _analyze_trend linregress metric_name values = Ok (Some r) ->
  metric r = metric_name /\ is_trend r = true.
Proof.
  unfold _analyze_trend.
  destruct (Qltb _ _); [| discriminate].
  destruct (_ || _); [| discriminate].
  destruct (mean (firstn 5 values)); cbn [bind]; [| discriminate].
  destruct (num_gtb _ _); [| discriminate].
  intro H. injection H as <-. split; reflexivity.
Qed.

Lemma analyze_trend_total (metric_name : string) (values : list Q) :
  (MIN_SAMPLE_SIZE <= List.length values)%nat ->
  exists found, _analyze_trend linregress metric_name values = Ok found.
Proof.
  intro Hlen. unfold _analyze_trend.
  destruct (Qltb _ _); [| eexists; reflexivity].
  destruct (_ || _); [| eexists; reflexivity].
  destruct values as [| v values]; [inversion Hlen |].
  cbn [firstn mean bind].
  destruct (num_gtb _ _); eexists; reflexivity.
Qed.

Lemma analyze_trends_spec (metric_types : list (string * list Q)) :
  exists regressions,
    analyze_trends linregress metric_types = Ok regressions /\
    forall r, In r regressions ->
      is_trend r = true /\
      exists values, In (metric r, values) metric_types /\
                     (MIN_SAMPLE_SIZE <= List.length values)%nat.
Proof.
  induction metric_types as [| [name values] rest [regs [Hregs Hall]]].
  - exists []. split; [reflexivity | intros r []].
  - cbn [analyze_trends]. rewrite Hregs.
    assert (Hweak : forall r, In r regs ->
              is_trend r = true /\
              exists values0, In (metric r, values0) ((name, values) :: rest) /\
                              (MIN_SAMPLE_SIZE <= List.length values0)%nat).
    { intros r Hr. destruct (Hall r Hr) as [Ht [vs [Hin Hlen]]].
      split; [exact Ht |]. exists vs. split; [right; exact Hin | exact Hlen]. }
    destruct (MIN_SAMPLE_SIZE <=? List.length values)%nat eqn:E.
    + apply Nat.leb_le in E.
      destruct (analyze_trend_total name values E) as [found Hfound].
      rewrite Hfound. cbn [bind]. destruct found as [r0 |].
      * exists (r0 :: regs). split; [reflexivity |].
        intros r [<- | Hr]; [| exact (Hweak r Hr)].
        destruct (analyze_trend_shape _ _ _ Hfound) as [Hm Ht].
        split; [exact Ht |]. exists values. rewrite Hm.
        split; [left; reflexivity | exact E].
      * exists regs. split; [reflexivity | exact Hweak].
    + cbn [bind]. exists regs. split; [reflexivity | exact Hweak].
Qed.

Lemma detect_trend_regressions_spec (self : Detector) :
  exists trend,
    _detect_trend_regressions linregress self = Ok trend /\
    forall r, In r trend ->
      is_trend r = true /\
      (MIN_SAMPLE_SIZE <=
       List.length (metric_series (metric r) (historical_metrics self)))%nat.
Proof.
  unfold _detect_trend_regressions.
  destruct (analyze_trends_spec (group_metrics (historical_metrics self)))
    as [trend [Htrend Hall]].
  exists trend. split; [exact Htrend |].
  intros r Hr. destruct (Hall r Hr) as [Ht [values [Hin Hlen]]].
  split; [exact Ht |].
  now rewrite <- (group_metrics_series _ _ _ Hin).
Qed.

Lemma compare_with_baseline_type (current items : snapshot)
    (regressions : list regression) :
  compare_with_baseline current items = Ok regressions ->
  forall r, In r regressions -> is_trend r = false.
Proof.
  revert regressions.
  induction items as [| [name bv] rest IH]; simpl; intros regressions H.
  - injection H as <-. intros r [].
  - destruct (compare_with_baseline current rest) as [regs |] eqn:Erest.
    + specialize (IH regs eq_refl).
      destruct (lookup name current) as [cv |]; cbn [bind] in H.
      * destruct (is_number bv && is_number cv); cbn [bind] in H.
        -- destruct (_check_metric_regression name (num_of bv) (num_of cv))
             as [[r0 |] |] eqn:E; cbn [bind] in H; try discriminate.
           ++ injection H as <-. intros r [<- | Hr]; [| now apply IH].
              unfold _check_metric_regression in E.
              destruct (is_higher_worse name);
                match type of E with
                | context [truediv ?a ?b] => destruct (truediv a b)
                end; cbn [bind] in E; try discriminate;
                match type of E with
                | context [num_gtb ?a ?b] => destruct (num_gtb a b)
                end; try discriminate; injection E as <-; reflexivity.
           ++ injection H as <-. exact IH.
        -- injection H as <-. exact IH.
      * injection H as <-. exact IH.
    + exfalso.
      destruct (lookup name current) as [cv |]; cbn [bind] in H.
      * destruct (is_number bv && is_number cv); cbn [bind] in H.
        -- destruct (_check_metric_regression name (num_of bv) (num_of cv));
             cbn [bind] in H; discriminate.
        -- discriminate.
      * discriminate.
Qed.

End TrendProperties.

Lemma is_trend_type (r : regression) :
  is_trend r = false <-> reg_type r = "baseline_comparison".
Proof.
  unfold is_trend, reg_type. destruct (reg_evidence r); split; intro H;
    try reflexivity; discriminate H.
Qed.

(** C6. The trend path always returns, and every regression it returns is a
    trend_analysis regression of a metric whose historical numeric series has
    at least [MIN_SAMPLE_SIZE] = 10 points.  Hence for a metric with 9 or
    fewer points every regression that [detect_regressions] returns for it
    comes from the baseline comparison. *)
Theorem trend_requires_min_samples (linregress : list Q -> list Q -> LinregressResult)
    (self : Detector) :
  (exists trend,
     _detect_trend_regressions linregress self = Ok trend /\
     forall r, In r trend ->
       reg_type r = "trend_analysis" /\
       (10 <= List.length (metric_series (metric r) (historical_metrics self)))%nat) /\
  (forall m regressions r,
     (List.length (metric_series m (historical_metrics self)) <= 9)%nat ->
     detect_regressions linregress self = Ok regressions ->
     In r regressions -> metric r = m ->
     reg_type r = "baseline_comparison").
Proof.
  destruct (detect_trend_regressions_spec linregress self) as [trend [Htrend Hall]].
  split.
  - exists trend. split; [exact Htrend |].
    intros r Hr. destruct (Hall r Hr) as [Ht Hlen]. split; [| exact Hlen].
    unfold is_trend in Ht. unfold reg_type.
    destruct (reg_evidence r); [discriminate | reflexivity].
  - intros m regressions r Hfew Hdetect Hin Hm.
    apply is_trend_type.
    unfold detect_regressions in Hdetect.
    destruct (compare_with_baseline (current_metrics self) (baseline_metrics self))
      as [regs |] eqn:Ebase; cbn [bind] in Hdetect; [| discriminate].
    pose proof (compare_with_baseline_type _ _ _ Ebase) as Hbase.
    destruct (MIN_SAMPLE_SIZE <=? List.length (historical_metrics self))%nat.
    + rewrite Htrend in Hdetect. cbn [bind] in Hdetect. injection Hdetect as <-.
      apply in_app_or in Hin. destruct Hin as [Hin | Hin]; [now apply Hbase |].
      destruct (Hall r Hin) as [_ Hlen]. rewrite Hm in Hlen.
      unfold MIN_SAMPLE_SIZE in Hlen. lia.
    + injection Hdetect as <-. now apply Hbase.
Qed.

Lemma trend_requires_min_samples_witness :
  (List.length (metric_series "cpu_usage" (historical_metrics sample_detector)) <= 9)%nat /\
  exists regressions,
    detect_regressions line_fit sample_detector = Ok regressions /\
    List.length regressions = 2%nat /\
    forall r, In r regressions -> metric r = "cpu_usage" ->
              reg_type r = "baseline_comparison".
Proof.
  assert (Hfew : (List.length (metric_series "cpu_usage"
                                 (historical_metrics sample_detector)) <= 9)%nat).
  { vm_compute. lia. }
  split; [exact Hfew |].
  destruct (detect_regressions line_fit sample_detector) as [regressions | e] eqn:E;
    [| vm_compute in E; discriminate E].
  exists regressions. split; [reflexivity |]. split.
  - vm_compute in E. injection E as <-. reflexivity.
  - intros r Hin Hm.
    exact (proj2 (trend_requires_min_samples line_fit sample_detector)
             "cpu_usage" regressions r Hfew E Hin Hm).
Defined.

(** With ten points on a rising line the trend path does flag the metric,
    and only that one. *)
Example trend_detected_with_ten_points :
  exists r,
    _detect_trend_regressions line_fit sample_detector = Ok [r] /\
    metric r = "memory_usage_mb" /\ reg_type r = "trend_analysis" /\
    severity r = critical.
Proof.
  eexists. split; [vm_compute; reflexivity |]. repeat split.
Qed.

(** ** The report *)

Lemma severity_eqb_eq (a b : Severity) : severity_eqb a b = true <-> a = b.
Proof.
  destruct a, b; simpl; split; intro H; try reflexivity; discriminate H.
Qed.

Lemma group_lookup_append (s s' : Severity) (r : regression)
    (groups : list (Severity * list regression)) :
  group_lookup s (group_append s' r groups) =
  if severity_eqb s s'
  then Some match group_lookup s groups with
            | Some rs => (rs ++ [r])%list
            | None => [r]
            end
  else group_lookup s groups.
Proof.
  induction groups as [| [s0 rs] groups IH]; simpl.
  - destruct (severity_eqb s s'); reflexivity.
  - destruct (severity_eqb s' s0) eqn:E; simpl.
    + apply severity_eqb_eq in E. subst s0.
      destruct (severity_eqb s s'); reflexivity.
    + destruct (severity_eqb s s0) eqn:E0.
      * apply severity_eqb_eq in E0. subst s0.
        destruct (severity_eqb s s') eqn:E1; [| reflexivity].
        apply severity_eqb_eq in E1. subst s'.
        assert (severity_eqb s s = true) by now apply severity_eqb_eq.
        congruence.
      * exact IH.
Qed.

Lemma group_lookup_fold (s : Severity) (regressions : list regression)
    (groups : list (Severity * list regression)) :
  group_lookup s
    (fold_left (fun groups r => group_append (severity r) r groups) regressions groups) =
  match group_lookup s groups with
  | Some rs => Some (rs ++ filter (has_severity s) regressions)%list
  | None => match filter (has_severity s) regressions with
            | [] => None
            | bucket => Some bucket
            end
  end.
Proof.
  revert groups. induction regressions as [| r rest IH]; intro groups.
  - simpl. destruct (group_lookup s groups); [now rewrite app_nil_r | reflexivity].
  - cbn [fold_left filter]. rewrite IH, group_lookup_append.
    replace (has_severity s r) with (severity_eqb s (severity r))
      by (unfold has_severity; destruct s, (severity r); reflexivity).
    destruct (severity_eqb s (severity r)).
    + destruct (group_lookup s groups); [now rewrite <- app_assoc | reflexivity].
    + reflexivity.
Qed.

(** The group of a severity is the sub-list of the regressions of that
    severity, in the order of the input list. *)
Lemma group_lookup_by_severity (s : Severity) (regressions : list regression) :
  group_lookup s (group_by_severity regressions) =
  match filter (has_severity s) regressions with
  | [] => None
  | bucket => Some bucket
  end.
Proof.
  unfold group_by_severity. now rewrite group_lookup_fold.
Qed.

Lemma length_by_severity (regressions : list regression) :
  List.length regressions =
  (List.length (filter (has_severity critical) regressions) +
   List.length (filter (has_severity high) regressions) +
   List.length (filter (has_severity medium) regressions) +
   List.length (filter (has_severity low) regressions))%nat.
Proof.
  induction regressions as [| r rest IH]; [reflexivity |].
  cbn [filter]. unfold has_severity in *.
  destruct (severity r); cbn [severity_eqb List.length]; lia.
Qed.

(** C3, the claim on two orders of the same records and on two clock
    readings: the text follows the order of the input list, so a permuted
    list renders differently, and the time of generation is part of the
    text. *)
Lemma report_order_counterexample :
  Permutation [sample_zeta; sample_alpha] [sample_alpha; sample_zeta] /\
  generate_report sample_detector "2026-01-20T10:00:00" [sample_zeta; sample_alpha] <>
  generate_report sample_detector "2026-01-20T10:00:00" [sample_alpha; sample_zeta] /\
  generate_report sample_detector "2026-01-20T10:00:00" [sample_zeta; sample_alpha] <>
  generate_report sample_detector "2026-01-20T10:00:01" [sample_zeta; sample_alpha].
Proof.
  split; [apply perm_swap |].
  split; intro H; vm_compute in H; discriminate H.
Qed.

(** C3, amended. For fixed snapshots and a fixed clock reading the report is
    a function of the sub-lists of each severity: each bucket lists its
    regressions in the order of the input list (metric names are not
    sorted), and two lists that hold the same records in the same relative
    order within every severity give the same text. *)
Theorem report_determined_by_buckets (self : Detector) (now : string)
    (regressions1 regressions2 : list regression) :
  (forall s, filter (has_severity s) regressions1 = filter (has_severity s) regressions2) ->
  generate_report self now regressions1 = generate_report self now regressions2 /\
  (forall s,
     render_severity (group_by_severity regressions1) s =
     match filter (has_severity s) regressions1 with
     | [] => []
     | bucket =>
         ("## " ++ upper (severity_name s) ++ " SEVERITY (" ++
          str_of_nat (List.length bucket) ++ ")") :: flat_map render_regression bucket
     end).
Proof.
  intro Hsame.
  assert (Hrender : forall regs s,
            render_severity (group_by_severity regs) s =
            match filter (has_severity s) regs with
            | [] => []
            | bucket =>
                ("## " ++ upper (severity_name s) ++ " SEVERITY (" ++
                 str_of_nat (List.length bucket) ++ ")") ::
                flat_map render_regression bucket
            end).
  { intros regs s. unfold render_severity. rewrite group_lookup_by_severity.
    destruct (filter (has_severity s) regs); reflexivity. }
  split; [| apply Hrender].
  assert (Hlen : List.length regressions1 = List.length regressions2).
  { rewrite (length_by_severity regressions1), (length_by_severity regressions2).
    now rewrite !Hsame. }
  assert (Hempty : is_empty regressions1 = is_empty regressions2).
  { destruct regressions1, regressions2; try reflexivity; discriminate Hlen. }
  unfold generate_report. rewrite Hlen, Hempty.
  cbn [flat_map]. rewrite !Hrender, !Hsame. reflexivity.
Qed.

Lemma report_determined_by_buckets_witness :
  generate_report sample_detector "2026-01-20T10:00:00"
    [sample_zeta; baseline_regression "throughput" 1000 400 (Fin 60); sample_alpha] =
  generate_report sample_detector "2026-01-20T10:00:00"
    [baseline_regression "throughput" 1000 400 (Fin 60); sample_zeta; sample_alpha].
Proof.
  refine (proj1 (report_determined_by_buckets sample_detector "2026-01-20T10:00:00"
                   [sample_zeta; baseline_regression "throughput" 1000 400 (Fin 60);
                    sample_alpha]
                   [baseline_regression "throughput" 1000 400 (Fin 60); sample_zeta;
                    sample_alpha] _)).
  intros []; reflexivity.
Defined.

(** ** Loading the historical snapshots *)

Lemma read_files_json (docs : list pyval) (rest : list file_read) (acc : list pyval) :
  read_files (map FileJson docs ++ rest) acc = read_files rest (acc ++ docs).
Proof.
  revert acc. induction docs as [| d docs IH]; intro acc; simpl.
  - now rewrite app_nil_r.
  - rewrite IH, <- app_assoc. reflexivity.
Qed.

Lemma timestamp_keys (snaps : list snapshot) :
  map_result timestamp_key (map PDict snaps) = Ok (map keyed snaps).
Proof.
  induction snaps as [| d snaps IH]; simpl; [reflexivity |]. now rewrite IH.
Qed.

Lemma keyed_string (d : snapshot) : string_timestamp d = true -> string_key (keyed d).
Proof.
  unfold string_timestamp, keyed, string_key. simpl.
  destruct (lookup "timestamp" d) as [[] |]; intro H; try discriminate H; eauto.
Qed.

Lemma insert_by_key_strings (x : pyval * snapshot) (sorted : list (pyval * snapshot)) :
  string_key x -> Forall string_key sorted ->
  exists l, insert_by_key x sorted = Ok l /\ Permutation (x :: sorted) l /\
            Forall string_key l.
Proof.
  intros [sx Hx] Hall. induction Hall as [| y rest [sy Hy] Hrest IH].
  - exists [x]. repeat split; [apply Permutation_refl | repeat constructor; now exists sx].
  - cbn [insert_by_key]. rewrite Hx, Hy. cbn [py_lt bind].
    destruct (String.ltb sy sx).
    + destruct IH as [l [Hl [Hperm Hkeys]]]. rewrite Hl. cbn [bind].
      exists (y :: l). repeat split.
      * apply Permutation_trans with (y :: x :: rest); [apply perm_swap |].
        now apply perm_skip.
      * constructor; [now exists sy | exact Hkeys].
    + exists (x :: y :: rest). repeat split; [apply Permutation_refl |].
      constructor; [now exists sx |]. constructor; [now exists sy | exact Hrest].
Qed.

Lemma sort_by_key_strings (l : list (pyval * snapshot)) :
  Forall string_key l ->
  exists sorted, sort_by_key l = Ok sorted /\ Permutation l sorted /\
                 Forall string_key sorted.
Proof.
  induction 1 as [| x rest Hx Hrest [sorted [Hs [Hperm Hkeys]]]].
  - exists []. repeat split; constructor.
  - cbn [sort_by_key]. rewrite Hs. cbn [bind].
    destruct (insert_by_key_strings x sorted Hx Hkeys) as [l [Hl [Hp Hk]]].
    exists l. repeat split; [exact Hl | | exact Hk].
    apply Permutation_trans with (x :: sorted); [now apply perm_skip | exact Hp].
Qed.

(** On snapshots with string time stamps the sort returns, and returns a
    rearrangement of its input. *)
Lemma sorted_by_timestamp_strings (snaps : list snapshot) :
  forallb string_timestamp snaps = true ->
  exists sorted, sorted_by_timestamp (map PDict snaps) = Ok sorted /\
                 Permutation snaps sorted.
Proof.
  intro Hall. unfold sorted_by_timestamp. rewrite timestamp_keys. cbn [bind].
  assert (Hkeys : Forall string_key (map keyed snaps)).
  { apply Forall_forall. intros x Hx. apply in_map_iff in Hx.
    destruct Hx as [d [<- Hd]]. apply keyed_string.
    rewrite forallb_forall in Hall. now apply Hall. }
  destruct (sort_by_key_strings _ Hkeys) as [sorted [Hs [Hperm _]]].
  rewrite Hs. cbn [bind]. exists (map snd sorted). split; [reflexivity |].
  apply (Permutation_map snd) in Hperm. rewrite map_map in Hperm. cbn [keyed snd] in Hperm.
  now rewrite map_id in Hperm.
Qed.

(** C2, the claim on a directory whose second file does not parse: the load
    returns no list at all, so the two readable files are not loaded. *)
Lemma malformed_file_counterexample :
  load_historical_metrics
    [FileJson (PDict [("timestamp", PStr "2026-01-01"); ("cpu_usage", PInt 10)]);
     FileMalformed;
     FileJson (PDict [("timestamp", PStr "2026-01-03"); ("cpu_usage", PInt 30)])] =
    Raise JSONDecodeError /\
  ~ exists historical,
      load_historical_metrics
        [FileJson (PDict [("timestamp", PStr "2026-01-01"); ("cpu_usage", PInt 10)]);
         FileMalformed;
         FileJson (PDict [("timestamp", PStr "2026-01-03"); ("cpu_usage", PInt 30)])] =
      Ok historical.
Proof.
  split; [reflexivity |]. intros [historical H]. discriminate H.
Qed.

(** C2, amended. When the files before it parse, an unparsable historical
    file makes the load raise [JSONDecodeError]: it is not skipped and the
    load returns nothing.  A file that is missing when it is opened ends the
    loop: the files read before it are kept and sorted, the files after it
    are not read.  When every file parses, all of them are loaded; if they
    hold objects with string time stamps the result is a rearrangement of
    all the snapshots. *)
Theorem load_historical_outcomes (docs : list pyval) (rest : list file_read) :
  load_historical_metrics (map FileJson docs ++ FileMalformed :: rest) =
    Raise JSONDecodeError /\
  load_historical_metrics (map FileJson docs ++ FileMissing :: rest) =
    sorted_by_timestamp docs /\
  load_historical_metrics (map FileJson docs) = sorted_by_timestamp docs /\
  (forall snaps,
     docs = map PDict snaps -> forallb string_timestamp snaps = true ->
     exists sorted,
       load_historical_metrics (map FileJson docs) = Ok sorted /\
       Permutation snaps sorted).
Proof.
  assert (Hall : load_historical_metrics (map FileJson docs) = sorted_by_timestamp docs).
  { unfold load_historical_metrics.
    rewrite <- (app_nil_r (map FileJson docs)), read_files_json. reflexivity. }
  repeat split.
  - unfold load_historical_metrics. rewrite read_files_json. reflexivity.
  - unfold load_historical_metrics. rewrite read_files_json. reflexivity.
  - exact Hall.
  - intros snaps -> Hkeys. rewrite Hall. now apply sorted_by_timestamp_strings.
Qed.

Lemma load_historical_outcomes_witness :
  exists sorted,
    load_historical_metrics
      (map FileJson (map PDict [ [("timestamp", PStr "b")]; [("cpu_usage", PInt 1)] ])) =
    Ok sorted /\
    Permutation [ [("timestamp", PStr "b")]; [("cpu_usage", PInt 1)] ] sorted.
Proof.
  exact (proj2 (proj2 (proj2 (load_historical_outcomes
                                (map PDict [ [("timestamp", PStr "b")];
                                             [("cpu_usage", PInt 1)] ]) [])))
           _ eq_refl eq_refl).
Defined.

(** ** The exit status *)


Lemma has_severity_true (s : Severity) (r : regression) :
  has_severity s r = true <-> severity r = s.
Proof. apply severity_eqb_eq. Qed.



(** ** The chat notification *)

Lemma filter_alert (s : Severity) (regressions : list regression) :
  s = high \/ s = critical ->
  filter (has_severity s) (filter is_alert regressions) =
  filter (has_severity s) regressions.
Proof.
  intro Hs. induction regressions as [| r rest IH]; [reflexivity |].
  cbn [filter]. unfold is_alert at 1.
  destruct (has_severity s r) eqn:E.
  - assert (Halert : has_severity high r || has_severity critical r = true).
    { apply has_severity_true in E. unfold has_severity. rewrite E.
      destruct Hs as [-> | ->]; reflexivity. }
    rewrite Halert. cbn [filter]. rewrite E, IH. reflexivity.
  - destruct (has_severity high r || has_severity critical r); [| exact IH].
    cbn [filter]. rewrite E. exact IH.
Qed.

(** C10. The chat message carries the summary attachment followed by one
    detail attachment per critical regression, in list order and at most
    five: with more than five critical regressions exactly the first five
    are detailed.  The counts of the summary are those of all the critical
    and all the high regressions, also in the message that [send_alert]
    builds from the unfiltered list. *)
Theorem slack_detail_attachments (self : Detector) (now stamp subject : string)
    (regressions : list regression) :
  let critical_regressions :=
    filter (fun r => match severity r with critical => true | _ => false end)
           regressions in
  let high_regressions :=
    filter (fun r => match severity r with high => true | _ => false end)
           regressions in
  let expected :=
    FieldsAttachment "danger"
      [ {| field_title := "Summary";
           field_value := "Critical: " ++ str_of_nat (List.length critical_regressions) ++
                          ", High: " ++ str_of_nat (List.length high_regressions);
           field_short := true |};
        {| field_title := "Time"; field_value := stamp; field_short := true |} ] ::
    map (fun r => TextAttachment "danger" ("‚Ä¢ " ++ description r))
        (firstn 5 critical_regressions) in
  message_text (slack_payload subject regressions stamp) = subject /\
  attachments (slack_payload subject regressions stamp) = expected /\
  (List.length (attachments (slack_payload subject regressions stamp)) <= 6)%nat /\
  ((5 < List.length critical_regressions)%nat ->
   List.length (attachments (slack_payload subject regressions stamp)) = 6%nat) /\
  (forall url,
     slack_webhook (config self) = Some url ->
     (exists r, In r regressions /\ (severity r = high \/ severity r = critical)) ->
     exists message,
       In (SlackDelivery url message) (send_alert self now stamp regressions) /\
       attachments message = expected).
Proof.
  cbv zeta.
  assert (Hcrit : forall l,
            filter (has_severity critical) l =
            filter (fun r => match severity r with critical => true | _ => false end) l).
  { intro l. apply filter_ext. intro r. unfold has_severity.
    destruct (severity r); reflexivity. }
  assert (Hhigh : forall l,
            filter (has_severity high) l =
            filter (fun r => match severity r with high => true | _ => false end) l).
  { intro l. apply filter_ext. intro r. unfold has_severity.
    destruct (severity r); reflexivity. }
  assert (Hpayload : forall subj l,
            attachments (slack_payload subj l stamp) =
            FieldsAttachment "danger"
              [ {| field_title := "Summary";
                   field_value :=
                     "Critical: " ++
                     str_of_nat (List.length
                        (filter (fun r => match severity r with
                                          | critical => true | _ => false end) l)) ++
                     ", High: " ++
                     str_of_nat (List.length
                        (filter (fun r => match severity r with
                                          | high => true | _ => false end) l));
                   field_short := true |};
                {| field_title := "Time"; field_value := stamp; field_short := true |} ] ::
            map (fun r => TextAttachment "danger" ("‚Ä¢ " ++ description r))
                (firstn 5 (filter (fun r => match severity r with
                                            | critical => true | _ => false end) l))).
  { intros subj l. unfold slack_payload. cbn [attachments].
    now rewrite !Hcrit, !Hhigh. }
  split; [reflexivity |]. split; [apply Hpayload |].
  rewrite Hpayload. cbn [List.length]. rewrite length_map. split; [| split].
  - pose proof (firstn_le_length 5
                  (filter (fun r => match severity r with
                                    | critical => true | _ => false end) regressions)).
    lia.
  - intro Hmany. rewrite firstn_length_le; lia.
  - intros url Hurl [r [Hin Hr]].
    assert (Halert : filter is_alert regressions <> []).
    { intro Hnil.
      assert (Hr' : In r (filter is_alert regressions)).
      { apply filter_In. split; [exact Hin |]. unfold is_alert.
        apply orb_true_iff. destruct Hr as [Hr | Hr]; [left | right];
          now apply has_severity_true. }
      rewrite Hnil in Hr'. exact Hr'. }
    unfold send_alert. fold is_alert.
    destruct regressions as [| r0 rest]; [contradiction |].
    cbn [is_empty].
    destruct (filter is_alert (r0 :: rest)) as [| a alerts] eqn:E; [contradiction |].
    cbn [is_empty]. rewrite Hurl.
    eexists. split.
    + apply in_or_app. right. left. reflexivity.
    + rewrite Hpayload, <- E, <- !Hcrit, <- !Hhigh.
      rewrite !filter_alert by auto. reflexivity.
Qed.

Lemma slack_detail_attachments_witness :
  exists message,
    In (SlackDelivery "https://hooks.example/T1" message)
       (send_alert
          (mkDetector (mkConfig None (Some "https://hooks.example/T1")) [] [] [])
          "2026-01-20T10:00:00" "2026-01-20 10:00:00" sample_alerts) /\
    attachments message =
      [ FieldsAttachment "danger"
          [ {| field_title := "Summary"; field_value := "Critical: 7, High: 1";
               field_short := true |};
            {| field_title := "Time"; field_value := "2026-01-20 10:00:00";
               field_short := true |} ];
        TextAttachment "danger" "‚Ä¢ latency_1 degraded by 100.0% from baseline";
        TextAttachment "danger" "‚Ä¢ latency_2 degraded by 100.0% from baseline";
        TextAttachment "danger" "‚Ä¢ latency_3 degraded by 100.0% from baseline";
        TextAttachment "danger" "‚Ä¢ latency_4 degraded by 100.0% from baseline";
        TextAttachment "danger" "‚Ä¢ latency_5 degraded by 100.0% from baseline" ].
Proof.
  refine (proj2 (proj2 (proj2 (proj2 (slack_detail_attachments
                                 (mkDetector
                                    (mkConfig None (Some "https://hooks.example/T1"))
                                    [] [] [])
                                 "2026-01-20T10:00:00" "2026-01-20 10:00:00" ""
                                 sample_alerts))))
            "https://hooks.example/T1" eq_refl _).
  exists (baseline_regression "throughput" 100 65 (Fin 35)).
  split; [left; reflexivity | left; reflexivity].
Defined.

(** ** The baseline path of the detector *)





(** * Further properties of the detector *)

(** ** The direction of a metric *)

Lemma lower_ascii_idempotent (c : ascii) : lower_ascii (lower_ascii c) = lower_ascii c.
Proof.
  destruct c as [[] [] [] [] [] [] [] []]; reflexivity.
Qed.

Lemma lower_idempotent (s : string) : lower (lower s) = lower s.
Proof.
  induction s as [| c s IH]; simpl; [reflexivity |].
  now rewrite lower_ascii_idempotent, IH.
Qed.

Lemma lower_upper (s : string) : lower (upper s) = lower s.
Proof.
  induction s as [| c s IH]; simpl; [reflexivity |]. rewrite IH. f_equal.
  destruct c as [[] [] [] [] [] [] [] []]; reflexivity.
Qed.

Lemma lower_append (a b : string) : lower (a ++ b) = lower a ++ lower b.
Proof.
  induction a as [| c a IH]; simpl; [reflexivity |]. now rewrite IH.
Qed.

Lemma prefix_append (needle hay tail : string) :
  String.prefix needle hay = true -> String.prefix needle (hay ++ tail) = true.
Proof.
  revert hay. induction needle as [| c needle IH]; intros hay H.
  - destruct (hay ++ tail); reflexivity.
  - destruct hay as [| h hay]; simpl in *; [discriminate |].
    destruct (ascii_dec c h); [now apply IH | discriminate].
Qed.

Lemma contains_append_r (needle hay tail : string) :
  contains needle hay = true -> contains needle (hay ++ tail) = true.
Proof.
  induction hay as [| h hay IH]; intro H.
  - cbn [contains] in H. destruct (String.prefix needle "") eqn:E; [| discriminate].
    destruct needle; [| discriminate E]. destruct tail; reflexivity.
  - cbn [contains] in H. destruct (String.prefix needle (String h hay)) eqn:E.
    + change (String h hay ++ tail) with (String h (hay ++ tail)).
      cbn [contains].
      change (String h (hay ++ tail)) with (String h hay ++ tail).
      now rewrite (prefix_append _ _ tail E).
    + change (String h hay ++ tail) with (String h (hay ++ tail)).
      cbn [contains]. rewrite (IH H).
      destruct (String.prefix needle (String h (hay ++ tail))); reflexivity.
Qed.

Lemma contains_append_l (needle head hay : string) :
  contains needle hay = true -> contains needle (head ++ hay) = true.
Proof.
  intro H. induction head as [| h head IH]; [exact H |].
  change (String h head ++ hay) with (String h (head ++ hay)).
  cbn [contains]. rewrite IH.
  destruct (String.prefix needle (String h (head ++ hay))); reflexivity.
Qed.

(** X1. The direction of a metric does not depend on the case of its ASCII
    letters, and a name that is higher-is-worse stays so inside any longer
    name. *)
Theorem direction_by_substring (prefix_part metric_name suffix_part : string) :
  is_higher_worse (upper metric_name) = is_higher_worse metric_name /\
  is_higher_worse (lower metric_name) = is_higher_worse metric_name /\
  (is_higher_worse metric_name = true ->
   is_higher_worse (prefix_part ++ metric_name ++ suffix_part) = true).
Proof.
  unfold is_higher_worse. rewrite lower_upper, lower_idempotent.
  split; [reflexivity |]. split; [reflexivity |].
  intro H. apply existsb_exists in H. destruct H as [keyword [Hin Hc]].
  apply existsb_exists. exists keyword. split; [exact Hin |].
  rewrite !lower_append. apply contains_append_l. now apply contains_append_r.
Qed.

Lemma direction_by_substring_witness :
  is_higher_worse "latency_budget_remaining" = true.
Proof.
  refine (proj2 (proj2 (direction_by_substring "" "latency" "_budget_remaining")) _).
  reflexivity.
Defined.

(** ** What the trend path flags *)

Lemma num_scale_gtb_neg (a b : Q) :
  b < 0 -> num_gtb (num_scale (np_truediv (Qabs a) b) 100) REGRESSION_THRESHOLD = false.
Proof.
  intro Hb. unfold np_truediv.
  destruct (Qeq_bool b 0) eqn:E.
  - apply Qeq_bool_iff in E. lra.
  - cbn [num_scale num_gtb]. rewrite negb_false_iff, !Qle_bool_Qred_l.
    apply Qle_bool_iff. unfold REGRESSION_THRESHOLD.
    assert (Hq : Qabs a / b <= 0).
    { unfold Qdiv. pose proof (Qabs_nonneg a) as Ha.
      assert (Hinv : / b < 0).
      { assert (H : 0 < / (- b)) by (apply Qinv_lt_0_compat; lra).
        assert (Heq : / (- b) == - / b) by (field; lra).
        rewrite Heq in H. lra. }
      assert (H : Qabs a * (- / b) >= 0) by (apply Qmult_le_0_compat; lra).
      lra. }
    rewrite Qred_correct. lra.
Qed.

Lemma firstn_nonempty {A : Type} (n : nat) (l : list A) :
  l <> [] -> firstn (S n) l <> [].
Proof.
  destruct l; [contradiction | discriminate].
Qed.

Lemma mean_nonempty (l : list Q) :
  l <> [] -> mean l = Ok (Qred (Qsum l / inject_Z (Z.of_nat (List.length l)))).
Proof.
  destruct l; [contradiction | reflexivity].
Qed.

Lemma length_pos_Q {A : Type} (l : list A) :
  l <> [] -> 0 < inject_Z (Z.of_nat (List.length l)).
Proof.
  destruct l; [contradiction |]. intros _. unfold Qlt. simpl. lia.
Qed.

Section EarlyAverage.

Variable linregress : list Q -> list Q -> LinregressResult.

(** X3. The percentage of a trend is taken relative to the mean of the first
    five values.  When that mean is negative no trend regression is raised,
    however steep the trend; when it is zero a significant degrading trend
    is raised with an infinite percentage and severity critical. *)
Theorem trend_early_average (metric_name : string) (values : list Q) :
  values <> [] ->
  let fit := linregress (arange (List.length values)) values in
  (Qsum (firstn 5 values) < 0 ->
   _analyze_trend linregress metric_name values = Ok None) /\
  (Qsum (firstn 5 values) == 0 ->
   lr_pvalue fit < 5 # 100 ->
   (if is_higher_worse metric_name then 0 < lr_slope fit else lr_slope fit < 0) ->
   exists r,
     _analyze_trend linregress metric_name values = Ok (Some r) /\
     change_percent r = Inf /\ severity r = critical).
Proof.
  intros Hne fit.
  pose proof (firstn_nonempty 4 values Hne) as Hfirst.
  pose proof (length_pos_Q _ Hfirst) as Hn.
  pose proof (length_pos_Q _ Hne) as Hlen.
  split.
  - intro Hneg. unfold _analyze_trend. fold fit.
    destruct (Qltb (lr_pvalue fit) (1 - CONFIDENCE_LEVEL)); [| reflexivity].
    destruct (_ || _); [| reflexivity].
    rewrite (mean_nonempty _ Hfirst). cbn [bind].
    rewrite num_scale_gtb_neg; [reflexivity |].
    rewrite Qred_correct.
    assert (H : Qsum (firstn 5 values) * / inject_Z (Z.of_nat (List.length (firstn 5 values)))
                < 0 * / inject_Z (Z.of_nat (List.length (firstn 5 values)))).
    { apply Qmult_lt_compat_r; [now apply Qinv_lt_0_compat | exact Hneg]. }
    unfold Qdiv. lra.
  - intros Hzero Hp Hslope. unfold _analyze_trend. fold fit.
    assert (Ep : Qltb (lr_pvalue fit) (1 - CONFIDENCE_LEVEL) = true).
    { apply Qltb_lt. unfold CONFIDENCE_LEVEL. lra. }
    rewrite Ep.
    assert (Hs : ~ lr_slope fit == 0 /\
                 (is_higher_worse metric_name && Qltb 0 (lr_slope fit)
                  || negb (is_higher_worse metric_name) && Qltb (lr_slope fit) 0) = true).
    { destruct (is_higher_worse metric_name); cbn [andb negb orb].
      - split; [lra |]. rewrite orb_false_r. now apply Qltb_lt.
      - split; [lra |]. now apply Qltb_lt. }
    destruct Hs as [Hnz Hdir]. rewrite Hdir.
    rewrite (mean_nonempty _ Hfirst). cbn [bind].
    assert (Havg : Qeq_bool (Qred (Qsum (firstn 5 values) /
                     inject_Z (Z.of_nat (List.length (firstn 5 values))))) 0 = true).
    { apply Qeq_bool_iff. rewrite Qred_correct, Hzero. unfold Qdiv. ring. }
    assert (Htotal : Qeq_bool (Qabs (lr_slope fit *
                       inject_Z (Z.of_nat (List.length values)))) 0 = false).
    { destruct (Qeq_bool (Qabs (lr_slope fit *
                  inject_Z (Z.of_nat (List.length values)))) 0) eqn:E; [| reflexivity].
      exfalso. apply Qeq_bool_iff in E.
      assert (Hprod : lr_slope fit * inject_Z (Z.of_nat (List.length values)) == 0).
      { revert E. apply Qabs_case; intros _ E; lra. }
      apply Qmult_integral in Hprod. destruct Hprod; [contradiction | lra]. }
    unfold np_truediv. rewrite Havg, Htotal. cbn [num_scale num_gtb].
    eexists. split; [reflexivity |]. split; reflexivity.
Qed.

End EarlyAverage.

(** ** What every returned regression satisfies *)

Lemma check_metric_regression_well_formed (metric_name : string) (baseline current : Q)
    (r : regression) :
  _check_metric_regression metric_name baseline current = Ok (Some r) -> well_formed r.
Proof.
  destruct (Qeq_bool baseline 0) eqn:Eb.
  - apply Qeq_bool_iff in Eb. rewrite (check_metric_regression_zero _ _ _ Eb).
    discriminate.
  - assert (Hb : ~ baseline == 0) by (intro H; apply Qeq_bool_iff in H; congruence).
    rewrite (check_metric_regression_nonzero _ _ _ Hb).
    destruct (Qltb REGRESSION_THRESHOLD
                (change_percent_spec metric_name baseline current)) eqn:E;
      [| discriminate].
    intro H. injection H as <-. split; [| reflexivity].
    cbn [change_percent baseline_regression]. now rewrite num_gtb_Qred.
Qed.

Lemma compare_with_baseline_forall (P : regression -> Prop) (current items : snapshot) :
  (forall n b c r, _check_metric_regression n b c = Ok (Some r) -> P r) ->
  forall regressions,
    compare_with_baseline current items = Ok regressions -> Forall P regressions.
Proof.
  intro HP. induction items as [| [name bv] rest IH]; simpl; intros regressions H.
  - injection H as <-. constructor.
  - destruct (compare_with_baseline current rest) as [regs |] eqn:Erest.
    + specialize (IH regs eq_refl).
      destruct (lookup name current) as [cv |]; cbn [bind] in H.
      * destruct (is_number bv && is_number cv); cbn [bind] in H.
        -- destruct (_check_metric_regression name (num_of bv) (num_of cv))
             as [[r0 |] |] eqn:E; cbn [bind] in H; try discriminate;
             injection H as <-; [constructor; [exact (HP _ _ _ _ E) | exact IH] | exact IH].
        -- injection H as <-. exact IH.
      * injection H as <-. exact IH.
    + exfalso.
      destruct (lookup name current) as [cv |]; cbn [bind] in H.
      * destruct (is_number bv && is_number cv); cbn [bind] in H.
        -- destruct (_check_metric_regression name (num_of bv) (num_of cv));
             cbn [bind] in H; discriminate.
        -- discriminate.
      * discriminate.
Qed.

Section Invariant.

Variable linregress : list Q -> list Q -> LinregressResult.

Lemma analyze_trend_well_formed (metric_name : string) (values : list Q) (r : regression) :
  _analyze_trend linregress metric_name values = Ok (Some r) -> well_formed r.
Proof.
  unfold _analyze_trend.
  destruct (Qltb _ _); [| discriminate].
  destruct (_ || _); [| discriminate].
  destruct (mean (firstn 5 values)); cbn [bind]; [| discriminate].
  match goal with |- context [num_gtb ?a ?b] => destruct (num_gtb a b) eqn:E end;
    [| discriminate].
  intro H. injection H as <-. split; [exact E | reflexivity].
Qed.

Lemma analyze_trends_forall (P : regression -> Prop)
    (metric_types : list (string * list Q)) :
  (forall n v r, _analyze_trend linregress n v = Ok (Some r) -> P r) ->
  forall regressions,
    analyze_trends linregress metric_types = Ok regressions -> Forall P regressions.
Proof.
  intro HP. induction metric_types as [| [name values] rest IH];
    cbn [analyze_trends]; intros regressions H.
  - injection H as <-. constructor.
  - destruct (analyze_trends linregress rest) as [regs |] eqn:Erest.
    + specialize (IH regs eq_refl).
      destruct (MIN_SAMPLE_SIZE <=? List.length values)%nat; cbn [bind] in H.
      * destruct (_analyze_trend linregress name values) as [[r0 |] |] eqn:E;
          cbn [bind] in H; try discriminate; injection H as <-;
          [constructor; [exact (HP _ _ _ E) | exact IH] | exact IH].
      * injection H as <-. exact IH.
    + exfalso.
      destruct (MIN_SAMPLE_SIZE <=? List.length values)%nat; cbn [bind] in H.
      * destruct (_analyze_trend linregress name values); cbn [bind] in H; discriminate.
      * discriminate.
Qed.

(** X4. Every regression that [detect_regressions] returns, from either
    path, has a percentage above the threshold of 15 (so never a [nan]) and
    the severity that [_calculate_severity] gives to that percentage. *)
Theorem regressions_clear_threshold (self : Detector) (regressions : list regression) :
  detect_regressions linregress self = Ok regressions ->
  Forall (fun r =>
            num_gtb (change_percent r) REGRESSION_THRESHOLD = true /\
            change_percent r <> NaN /\
            severity r = _calculate_severity (change_percent r))
         regressions.
Proof.
  intro H.
  assert (Hwf : Forall well_formed regressions).
  { unfold detect_regressions in H.
    destruct (compare_with_baseline (current_metrics self) (baseline_metrics self))
      as [regs |] eqn:Ebase; cbn [bind] in H; [| discriminate].
    pose proof (compare_with_baseline_forall well_formed _ _
                  check_metric_regression_well_formed _ Ebase) as Hbase.
    destruct (MIN_SAMPLE_SIZE <=? List.length (historical_metrics self))%nat.
    - destruct (_detect_trend_regressions linregress self) as [trend |] eqn:Etrend;
        cbn [bind] in H; [| discriminate].
      injection H as <-. apply Forall_app. split; [exact Hbase |].
      exact (analyze_trends_forall well_formed _ analyze_trend_well_formed _ Etrend).
    - injection H as <-. exact Hbase. }
  eapply Forall_impl; [| exact Hwf].
  intros r [Hgate Hsev]. split; [exact Hgate |]. split; [| exact Hsev].
  intro Hnan. rewrite Hnan in Hgate. discriminate Hgate.
Qed.

End Invariant.

Lemma regressions_clear_threshold_witness :
  exists regressions,
    detect_regressions line_fit sample_detector = Ok regressions /\
    Forall (fun r => change_percent r <> NaN) regressions.
Proof.
  destruct (detect_regressions line_fit sample_detector) as [regressions | e] eqn:E;
    [| vm_compute in E; discriminate E].
  exists regressions. split; [reflexivity |].
  eapply Forall_impl;
    [| exact (regressions_clear_threshold line_fit sample_detector regressions E)].
  intros r [_ [H _]]. exact H.
Defined.

Lemma trend_early_average_witness :
  exists r,
    _analyze_trend line_fit "memory_usage_mb" zero_mean_series = Ok (Some r) /\
    change_percent r = Inf /\ severity r = critical.
Proof.
  assert (Hne : zero_mean_series <> []) by discriminate.
  refine (proj2 (trend_early_average line_fit "memory_usage_mb" zero_mean_series Hne)
            _ _ _); reflexivity.
Defined.

(** ** The score and the report *)





Section EmptyBaseline.

Variable linregress : list Q -> list Q -> LinregressResult.


End EmptyBaseline.


(** ** Alerts *)

Lemma filter_exists {A : Type} (f : A -> bool) (l : list A) :
  filter f l <> [] <-> Exists (fun a => f a = true) l.
Proof.
  split.
  - intro H. destruct (filter f l) as [| a rest] eqn:E; [contradiction |].
    assert (Hin : In a (filter f l)) by (rewrite E; left; reflexivity).
    apply filter_In in Hin. apply Exists_exists. now exists a.
  - intros Hex Hnil. apply Exists_exists in Hex. destruct Hex as [a [Hin Ha]].
    assert (Hin' : In a (filter f l)) by (apply filter_In; now split).
    rewrite Hnil in Hin'. exact Hin'.
Qed.

(** X7. [send_alert] attempts one delivery per configured sink, the email
    before the chat message, when the list holds a high or critical
    regression, and none at all otherwise; all deliveries carry the same
    subject, which counts the high and critical regressions. *)
Theorem alert_fan_out (self : Detector) (now stamp : string)
    (regressions : list regression) :
  let alerts := filter is_alert regressions in
  let sent := send_alert self now stamp regressions in
  (alerts = [] -> sent = []) /\
  (alerts <> [] ->
   List.length sent = sink_count (config self) /\
   map is_email sent =
     ((if configured (email (config self)) then [true] else []) ++
      (if configured (slack_webhook (config self)) then [false] else []))%list /\
   Forall (fun d => delivery_subject d =
                    "üö® Performance Regression Alert - " ++
                    str_of_nat (List.length alerts) ++ " Issues Detected") sent).
Proof.
  cbv zeta. unfold send_alert. fold is_alert. split.
  - intro Hnone. destruct regressions; [reflexivity |]. cbn [is_empty].
    rewrite Hnone. reflexivity.
  - intro Hsome. destruct regressions as [| r0 rest]; [contradiction |].
    cbn [is_empty].
    destruct (filter is_alert (r0 :: rest)) as [| a alerts] eqn:E; [contradiction |].
    cbn [is_empty]. unfold sink_count.
    destruct (email (config self)), (slack_webhook (config self));
      cbn [configured app List.length map is_email];
      repeat split; repeat constructor.
Qed.

Lemma alert_fan_out_witness :
  List.length
    (send_alert
       (mkDetector
          (mkConfig (Some (mkEmailConfig "ci@example.org" "ops@example.org"
                             "smtp.example.org" 587 "ci" "secret"))
                    (Some "https://hooks.example/T1")) [] [] [])
       "2026-01-20T10:00:00" "2026-01-20 10:00:00" sample_alerts) = 2%nat.
Proof.
  refine (proj1 (proj2 (alert_fan_out
                          (mkDetector
                             (mkConfig
                                (Some (mkEmailConfig "ci@example.org" "ops@example.org"
                                         "smtp.example.org" 587 "ci" "secret"))
                                (Some "https://hooks.example/T1")) [] [] [])
                          "2026-01-20T10:00:00" "2026-01-20 10:00:00" sample_alerts) _)).
  discriminate.
Defined.

(** ** The order of the loaded snapshots *)

Lemma ltb_trans (a b c : string) :
  String.ltb a b = true -> String.ltb b c = true -> String.ltb a c = true.
Proof.
  unfold String.ltb.
  destruct (String.compare a b) eqn:Eab; intro H1; try discriminate H1.
  destruct (String.compare b c) eqn:Ebc; intro H2; try discriminate H2.
  assert (H : String.compare a c = Lt).
  { exact (@StrictOrder_Transitive _ _ String_as_OT.lt_strorder a b c Eab Ebc). }
  now rewrite H.
Qed.

Lemma leb_of_not_ltb (a b : string) : String.ltb b a = false -> String.leb a b = true.
Proof.
  unfold String.ltb, String.leb. rewrite (String.compare_antisym b a).
  destruct (String.compare a b); simpl; congruence.
Qed.

Lemma ltb_leb (a b : string) : String.ltb a b = true -> String.leb a b = true.
Proof.
  unfold String.ltb, String.leb. destruct (String.compare a b); congruence.
Qed.

Lemma ltb_irrefl (a : string) : String.ltb a a = false.
Proof.
  unfold String.ltb. pose proof (String.compare_antisym a a) as H.
  destruct (String.compare a a); try reflexivity; discriminate H.
Qed.

Lemma leb_trans (a b c : string) :
  String.leb a b = true -> String.leb b c = true -> String.leb a c = true.
Proof.
  intros Hab Hbc.
  destruct (String.ltb a b) eqn:Lab.
  - destruct (String.ltb b c) eqn:Lbc.
    + apply ltb_leb. eapply ltb_trans; eassumption.
    + apply leb_of_not_ltb in Lbc.
      rewrite (String.leb_antisym _ _ Hbc Lbc) in Lab. now apply ltb_leb.
  - apply leb_of_not_ltb in Lab. now rewrite (String.leb_antisym _ _ Hab Lab).
Qed.

Lemma leb_empty (s : string) : String.leb s "" = true -> s = "".
Proof.
  destruct s; [reflexivity | discriminate].
Qed.

Lemma keyed_ok (d : snapshot) : string_timestamp d = true -> key_ok (keyed d).
Proof.
  unfold string_timestamp, key_ok, keyed, timestamp_of. simpl.
  destruct (lookup "timestamp" d) as [[] |]; intro H; try discriminate H; reflexivity.
Qed.

Lemma insert_by_key_sorted (x : pyval * snapshot) (sorted : list (pyval * snapshot)) :
  key_ok x -> Forall key_ok sorted -> StronglySorted pair_le sorted ->
  exists l,
    insert_by_key x sorted = Ok l /\ Permutation (x :: sorted) l /\
    StronglySorted pair_le l /\
    forall k, filter (fun p => has_key k (snd p)) l =
              filter (fun p => has_key k (snd p)) (x :: sorted).
Proof.
  intros Hx Hall Hsorted. induction sorted as [| y rest IH].
  - exists [x]. repeat split; try reflexivity; repeat constructor.
  - inversion Hall as [| y' rest' Hy Hrest]; subst.
    inversion Hsorted as [| y' rest' Hsrest Hyrest]; subst.
    cbn [insert_by_key]. unfold key_ok in Hx, Hy. rewrite Hx, Hy. cbn [py_lt bind].
    destruct (String.ltb (timestamp_of (snd y)) (timestamp_of (snd x))) eqn:E.
    + destruct (IH Hrest Hsrest) as [l [Hl [Hperm [Hs Hstable]]]].
      rewrite Hl. cbn [bind]. exists (y :: l). repeat split.
      * apply Permutation_trans with (y :: x :: rest); [apply perm_swap |].
        now apply perm_skip.
      * constructor; [exact Hs |].
        eapply Permutation_Forall; [exact Hperm |].
        constructor; [now apply ltb_leb | exact Hyrest].
      * intro k. cbn [filter]. rewrite Hstable. cbn [filter].
        destruct (has_key k (snd x)) eqn:Ex; [| reflexivity].
        destruct (has_key k (snd y)) eqn:Ey; [| reflexivity].
        exfalso. unfold has_key in Ex, Ey.
        apply String.eqb_eq in Ex, Ey. rewrite Ex, Ey, ltb_irrefl in E. discriminate E.
    + exists (x :: y :: rest). repeat split; try reflexivity.
      constructor; [exact Hsorted |].
      apply leb_of_not_ltb in E. constructor; [exact E |].
      eapply Forall_impl; [| exact Hyrest].
      intros z Hz. unfold pair_le in *. eapply leb_trans; eassumption.
Qed.

Lemma sort_by_key_sorted (l : list (pyval * snapshot)) :
  Forall key_ok l ->
  exists sorted,
    sort_by_key l = Ok sorted /\ Permutation l sorted /\
    StronglySorted pair_le sorted /\
    forall k, filter (fun p => has_key k (snd p)) sorted =
              filter (fun p => has_key k (snd p)) l.
Proof.
  induction 1 as [| x rest Hx Hrest [sorted [Hs [Hperm [Hsorted Hstable]]]]].
  - exists []. repeat split; constructor.
  - cbn [sort_by_key]. rewrite Hs. cbn [bind].
    assert (Hkeys : Forall key_ok sorted)
      by (eapply Permutation_Forall; eassumption).
    destruct (insert_by_key_sorted x sorted Hx Hkeys Hsorted)
      as [l [Hl [Hp [Hsl Hst]]]].
    exists l. repeat split; [exact Hl | | exact Hsl |].
    + apply Permutation_trans with (x :: sorted); [now apply perm_skip | exact Hp].
    + intro k. rewrite Hst. cbn [filter]. rewrite Hstable. reflexivity.
Qed.

Lemma StronglySorted_map_snd (l : list (pyval * snapshot)) :
  StronglySorted pair_le l -> StronglySorted snapshot_le (map snd l).
Proof.
  induction 1 as [| x l Hl IH Hx]; cbn [map]; constructor; [exact IH |].
  apply Forall_map. exact Hx.
Qed.

Lemma filter_map_snd (k : string) (l : list (pyval * snapshot)) :
  filter (has_key k) (map snd l) = map snd (filter (fun p => has_key k (snd p)) l).
Proof.
  induction l as [| x l IH]; cbn [map filter]; [reflexivity |].
  destruct (has_key k (snd x)); cbn [map]; now rewrite IH.
Qed.

Lemma StronglySorted_before {A : Type} (R : A -> A -> Prop) (l1 l2 : list A) (a b : A) :
  StronglySorted R (l1 ++ a :: l2) -> In b l2 -> R a b.
Proof.
  induction l1 as [| x l1 IH]; cbn [app]; intros Hs Hin.
  - inversion Hs as [| ? ? _ Hall]; subst.
    rewrite Forall_forall in Hall. now apply Hall.
  - inversion Hs; subst. now apply IH.
Qed.

(** X8. When every historical file holds an object whose time stamp is a
    string or is absent, the load returns the snapshots in ascending order
    of time stamp, the snapshots without one (key [""]) before all those
    with a non-empty one, and snapshots with equal time stamps in the order
    in which the files were read. *)
Theorem historical_sorted_stable (snaps : list snapshot) :
  forallb string_timestamp snaps = true ->
  exists sorted,
    load_historical_metrics (map FileJson (map PDict snaps)) = Ok sorted /\
    StronglySorted snapshot_le sorted /\
    (forall k, filter (has_key k) sorted = filter (has_key k) snaps) /\
    (forall before a after b,
       sorted = (before ++ a :: after)%list -> In b after ->
       has_timestamp b = false -> timestamp_of a = "").
Proof.
  intro Hall.
  assert (Hkeys : Forall key_ok (map keyed snaps)).
  { apply Forall_forall. intros x Hx. apply in_map_iff in Hx.
    destruct Hx as [d [<- Hd]]. apply keyed_ok.
    rewrite forallb_forall in Hall. now apply Hall. }
  destruct (sort_by_key_sorted _ Hkeys) as [sorted [Hs [_ [Hsorted Hstable]]]].
  exists (map snd sorted).
  assert (Hss : StronglySorted snapshot_le (map snd sorted))
    by now apply StronglySorted_map_snd.
  split; [| split; [exact Hss | split]].
  - unfold load_historical_metrics.
    rewrite <- (app_nil_r (map FileJson (map PDict snaps))), read_files_json.
    cbn [read_files app]. unfold sorted_by_timestamp.
    rewrite timestamp_keys. cbn [bind]. rewrite Hs. reflexivity.
  - intro k. rewrite filter_map_snd, Hstable, <- filter_map_snd, map_map.
    cbn [keyed snd]. now rewrite map_id.
  - intros before a after b Heq Hin Hb. rewrite Heq in Hss.
    pose proof (StronglySorted_before _ _ _ _ _ Hss Hin) as Hle.
    unfold snapshot_le in Hle.
    assert (Hkey : timestamp_of b = "").
    { unfold has_timestamp in Hb. unfold timestamp_of.
      destruct (lookup "timestamp" b); [discriminate | reflexivity]. }
    rewrite Hkey in Hle. now apply leb_empty.
Qed.

Lemma historical_sorted_stable_witness :
  load_historical_metrics
    (map FileJson (map PDict [ [("timestamp", PStr "b"); ("cpu_usage", PInt 2)];
                               [("cpu_usage", PInt 1)];
                               [("timestamp", PStr "a")] ])) =
  Ok [ [("cpu_usage", PInt 1)]; [("timestamp", PStr "a")];
       [("timestamp", PStr "b"); ("cpu_usage", PInt 2)] ].
Proof.
  destruct (historical_sorted_stable
              [ [("timestamp", PStr "b"); ("cpu_usage", PInt 2)];
                [("cpu_usage", PInt 1)];
                [("timestamp", PStr "a")] ] eq_refl) as [sorted [H _]].
  rewrite H. vm_compute in H. injection H as <-. reflexivity.
Defined.

(** ** Documents the sort does not accept *)

Lemma timestamp_keys_not_dict (docs : list pyval) :
  Exists (fun d => is_dict d = false) docs ->
  map_result timestamp_key docs = Raise AttributeError.
Proof.
  induction 1 as [d rest Hd | d rest _ IH].
  - destruct d; try discriminate Hd; reflexivity.
  - cbn [map_result]. rewrite IH. destruct d; reflexivity.
Qed.

Lemma py_lt_exn (a b : pyval) (e : exn) : py_lt a b = Raise e -> e = TypeError.
Proof.
  destruct a, b; simpl; congruence.
Qed.

Lemma insert_by_key_exn (x : pyval * snapshot) (l : list (pyval * snapshot)) (e : exn) :
  insert_by_key x l = Raise e -> e = TypeError.
Proof.
  induction l as [| y rest IH]; cbn [insert_by_key]; [discriminate |].
  destruct (py_lt (fst y) (fst x)) as [[] |] eqn:E; cbn [bind].
  - destruct (insert_by_key x rest); cbn [bind]; [discriminate |].
    intro H. injection H as <-. now apply IH.
  - discriminate.
  - intro H. injection H as <-. exact (py_lt_exn _ _ _ E).
Qed.

Lemma sort_by_key_exn (l : list (pyval * snapshot)) (e : exn) :
  sort_by_key l = Raise e -> e = TypeError.
Proof.
  induction l as [| x rest IH]; cbn [sort_by_key]; [discriminate |].
  destruct (sort_by_key rest); cbn [bind].
  - apply insert_by_key_exn.
  - intro H. injection H as <-. now apply IH.
Qed.

Lemma insert_by_key_perm (x : pyval * snapshot) (l l' : list (pyval * snapshot)) :
  insert_by_key x l = Ok l' -> Permutation (x :: l) l'.
Proof.
  revert l'. induction l as [| y rest IH]; cbn [insert_by_key]; intros l' H.
  - injection H as <-. apply Permutation_refl.
  - destruct (py_lt (fst y) (fst x)) as [[] |]; cbn [bind] in H; [| | discriminate].
    + destruct (insert_by_key x rest) as [tail |]; cbn [bind] in H; [| discriminate].
      injection H as <-.
      apply Permutation_trans with (y :: x :: rest); [apply perm_swap |].
      apply perm_skip. now apply IH.
    + injection H as <-. apply Permutation_refl.
Qed.

Lemma sort_by_key_perm (l sorted : list (pyval * snapshot)) :
  sort_by_key l = Ok sorted -> Permutation l sorted.
Proof.
  revert sorted. induction l as [| x rest IH]; cbn [sort_by_key]; intros sorted H.
  - injection H as <-. constructor.
  - destruct (sort_by_key rest) as [s |]; cbn [bind] in H; [| discriminate].
    apply Permutation_trans with (x :: s); [apply perm_skip; now apply IH |].
    now apply insert_by_key_perm.
Qed.

Lemma py_lt_same_kind (a b : pyval) (lt : bool) :
  py_lt a b = Ok lt ->
  ((exists s, a = PStr s) <-> (exists t, b = PStr t)) /\
  (is_number a = is_number b).
Proof.
  destruct a, b; simpl; try discriminate; intros _; split; try reflexivity;
    split; intros [w Hw]; try discriminate Hw; eauto.
Qed.

(** A sort that returns has met no string key together with a number. *)
Lemma sort_by_key_kinds (l sorted : list (pyval * snapshot)) :
  sort_by_key l = Ok sorted ->
  forall x y, In x l -> In y l -> string_key x -> number_key y -> False.
Proof.
  revert sorted. induction l as [| z rest IH]; intros sorted H x y Hx Hy Hsx Hny;
    [contradiction |].
  cbn [sort_by_key] in H.
  destruct (sort_by_key rest) as [s |] eqn:Es; cbn [bind] in H; [| discriminate].
  specialize (IH s eq_refl).
  pose proof (sort_by_key_perm _ _ Es) as Hperm.
  assert (Hhead : forall w, In w rest ->
            exists h, In h rest /\
              ((exists a, fst h = PStr a) <-> (exists b, fst z = PStr b)) /\
              is_number (fst h) = is_number (fst z)).
  { intros w Hw. destruct s as [| h s'].
    - apply Permutation_sym, Permutation_nil in Hperm. subst rest. contradiction.
    - cbn [insert_by_key] in H.
      destruct (py_lt (fst h) (fst z)) as [lt |] eqn:E; cbn [bind] in H; [| discriminate].
      exists h. split; [| exact (py_lt_same_kind _ _ _ E)].
      eapply Permutation_in; [apply Permutation_sym; exact Hperm | left; reflexivity]. }
  destruct Hx as [<- | Hx], Hy as [<- | Hy].
  - destruct Hsx as [a Ha]. unfold number_key in Hny. rewrite Ha in Hny. discriminate Hny.
  - destruct (Hhead y Hy) as [h [Hh [Hstr _]]].
    apply (IH h y Hh Hy); [| exact Hny]. unfold string_key. now apply Hstr.
  - destruct (Hhead x Hx) as [h [Hh [_ Hnum]]].
    apply (IH x h Hx Hh Hsx). unfold number_key in *. now rewrite Hnum.
  - exact (IH x y Hx Hy Hsx Hny).
Qed.

Lemma keyed_number (d : snapshot) : number_timestamp d = true -> number_key (keyed d).
Proof.
  unfold number_timestamp, keyed, number_key. simpl.
  destruct (lookup "timestamp" d); [auto | discriminate].
Qed.

(** X9. A historical file that parses to something other than an object
    makes the load raise [AttributeError], and objects of which one has a
    string (or no) time stamp and another a numeric one make it raise
    [TypeError]: in both cases no snapshot is loaded. *)
Theorem historical_rejected_documents (docs : list pyval) (snaps : list snapshot)
    (a b : snapshot) :
  (Exists (fun d => is_dict d = false) docs ->
   load_historical_metrics (map FileJson docs) = Raise AttributeError) /\
  (In a snaps -> In b snaps ->
   string_timestamp a = true -> number_timestamp b = true ->
   load_historical_metrics (map FileJson (map PDict snaps)) = Raise TypeError).
Proof.
  assert (Hload : forall ds, load_historical_metrics (map FileJson ds) =
                             sorted_by_timestamp ds).
  { intro ds. unfold load_historical_metrics.
    rewrite <- (app_nil_r (map FileJson ds)), read_files_json. reflexivity. }
  split.
  - intro Hex. rewrite Hload. unfold sorted_by_timestamp.
    rewrite (timestamp_keys_not_dict _ Hex). reflexivity.
  - intros Ha Hb Hsa Hnb. rewrite Hload. unfold sorted_by_timestamp.
    rewrite timestamp_keys. cbn [bind].
    destruct (sort_by_key (map keyed snaps)) as [sorted | e] eqn:E.
    + exfalso.
      apply (sort_by_key_kinds _ _ E (keyed a) (keyed b)).
      * now apply in_map.
      * now apply in_map.
      * now apply keyed_string.
      * now apply keyed_number.
    + cbn [bind]. f_equal. exact (sort_by_key_exn _ _ E).
Qed.

Lemma historical_rejected_documents_witness :
  load_historical_metrics
    [FileJson (PDict [("timestamp", PStr "2026-01-01")]); FileJson (PList [PInt 1])] =
    Raise AttributeError /\
  load_historical_metrics
    (map FileJson (map PDict [ [("cpu_usage", PInt 1)];
                               [("timestamp", PInt 1767225600)] ])) = Raise TypeError.
Proof.
  split.
  - refine (proj1 (historical_rejected_documents
                     [PDict [("timestamp", PStr "2026-01-01")]; PList [PInt 1]]
                     [] [] []) _).
    right. left. reflexivity.
  - refine (proj2 (historical_rejected_documents []
                     [ [("cpu_usage", PInt 1)]; [("timestamp", PInt 1767225600)] ]
                     [("cpu_usage", PInt 1)] [("timestamp", PInt 1767225600)])
              _ _ eq_refl eq_refl).
    + left. reflexivity.
    + right. left. reflexivity.
Defined.

(** ** Charts *)

Lemma chart_for_spec (self : Detector) (metrics_data : list (string * list Q))
    (metric_key : string) (c : Chart) :
  In c (chart_for self metrics_data metric_key) ->
  In (chart_key c, chart_values c) metrics_data /\
  (2 <= List.length (chart_values c))%nat /\
  contains metric_key (lower (chart_key c)) = true /\
  chart_current c = lookup (chart_key c) (current_metrics self) /\
  chart_baseline c = lookup (chart_key c) (baseline_metrics self).
Proof.
  unfold chart_for.
  destruct (find _ metrics_data) as [[key values] |] eqn:E; [| intros []].
  apply find_some in E. destruct E as [Hin Hmatch]. cbn [fst] in Hmatch.
  destruct (2 <=? List.length values)%nat eqn:Elen; [| intros []].
  intros [<- | []]. cbn [chart_key chart_values chart_current chart_baseline].
  apply Nat.leb_le in Elen. repeat split; assumption.
Qed.

Lemma chart_for_length (self : Detector) (metrics_data : list (string * list Q))
    (metric_key : string) :
  (List.length (chart_for self metrics_data metric_key) <= 1)%nat.
Proof.
  unfold chart_for. destruct (find _ metrics_data) as [[key values] |]; [| simpl; lia].
  destruct (2 <=? List.length values)%nat; simpl; lia.
Qed.

(** X10. [generate_visualizations] draws at most four charts, one per key
    metric.  Each chart is for a metric whose name contains the key metric,
    and shows the series of that metric over the historical snapshots that
    have a time stamp, which has at least two points; snapshots without a
    time stamp are left out of the charts. *)
Theorem charts_of_timestamped_history (self : Detector) :
  (List.length (generate_visualizations self) <= 4)%nat /\
  Forall (fun c =>
            (2 <= List.length (chart_values c))%nat /\
            chart_values c =
              metric_series (chart_key c)
                (filter has_timestamp (historical_metrics self)) /\
            (exists metric_key,
               In metric_key key_metrics /\
               contains metric_key (lower (chart_key c)) = true) /\
            chart_current c = lookup (chart_key c) (current_metrics self) /\
            chart_baseline c = lookup (chart_key c) (baseline_metrics self))
         (generate_visualizations self).
Proof.
  unfold generate_visualizations. split.
  - unfold key_metrics. cbn [flat_map]. rewrite !length_app. cbn [List.length].
    repeat match goal with
           | |- context [List.length (chart_for ?s ?d ?k)] =>
               pose proof (chart_for_length s d k);
               generalize dependent (List.length (chart_for s d k)); intros
           end.
    lia.
  - apply Forall_forall. intros c Hc. apply in_flat_map in Hc.
    destruct Hc as [metric_key [Hkey Hc]].
    destruct (chart_for_spec _ _ _ _ Hc) as [Hin [Hlen [Hmatch [Hcur Hbase]]]].
    split; [exact Hlen |]. split; [exact (group_metrics_series _ _ _ Hin) |].
    split; [exists metric_key; now split |]. now split.
Qed.

(** ** Runs of [main] *)

Lemma import_all_outcome (library : Library) (statements : list (string * list string)) :
  import_all library statements = Ok tt \/
  import_all library statements = Raise ImportError.
Proof.
  induction statements as [| statement rest IH]; [left; reflexivity |].
  cbn [import_all]. unfold import_one.
  destruct (library (fst statement)) as [defined |]; [| right; reflexivity].
  destruct (forallb _ (snd statement)); [exact IH | right; reflexivity].
Qed.

Lemma import_all_fails (library : Library) (statements : list (string * list string))
    (statement : string * list string) :
  In statement statements ->
  import_one library statement = Raise ImportError ->
  import_all library statements = Raise ImportError.
Proof.
  intros Hin Hfail. induction statements as [| first rest IH]; [contradiction |].
  cbn [import_all]. destruct Hin as [-> | Hin].
  - rewrite Hfail. reflexivity.
  - destruct (import_one library first) as [[] | e] eqn:E; cbn [bind].
    + exact (IH Hin).
    + unfold import_one in E. destruct (library (fst first)); [| congruence].
      destruct (forallb _ (snd first)); congruence.
Qed.



Section MainProperties.

Variable detection : Detector -> result (list regression).
Variable reporting : Detector -> string -> list regression -> result string.









(** X15. Lines 19 and 20 import [MimeText] and [MimeMultipart].  With a
    library whose [email.mime.text] does not define [MimeText], as the
    standard one, which names the class [MIMEText], loading the module
    raises [ImportError] before [main] is called: every run ends with status
    1 and leaves nothing behind, whatever the command line and the files. *)
Theorem script_import_error (library : Library) (outside : Outside) (clock : Clock)
    (invocation : Invocation) (files : Files) :
  (forall defined, library "email.mime.text" = Some defined -> ~ In "MimeText" defined) ->
  run_script detection reporting library outside clock invocation files =
    (Crashed ImportError, no_effects) /\
  process_status
    (fst (run_script detection reporting library outside clock invocation files)) = 1%Z.
Proof.
  intro Hmissing.
  assert (Hload : load_module library = Raise ImportError).
  { apply (import_all_fails library imports ("email.mime.text", ["MimeText"])).
    - unfold imports. do 7 right. left. reflexivity.
    - unfold import_one. cbn [fst snd].
      destruct (library "email.mime.text") as [defined |] eqn:E; [| reflexivity].
      cbn [forallb]. rewrite andb_true_r.
      destruct (existsb (String.eqb "MimeText") defined) eqn:Ex; [| reflexivity].
      exfalso. apply existsb_exists in Ex. destruct Ex as [name [Hin Heq]].
      apply String.eqb_eq in Heq. subst name. exact (Hmissing defined eq_refl Hin). }
  unfold run_script. rewrite Hload. split; reflexivity.
Qed.

End MainProperties.


(** The claim as it stands fails: no three distinct statuses tell the three
    outcomes apart, because a run that detects nothing and whose score
    divides by zero leaves with the status of a critical regression. *)
Lemma exit_status_counterexample :
  ~ exists c0 c1 c2 : Z,
      c0 <> c1 /\ c0 <> c2 /\ c1 <> c2 /\
      forall files detector regressions,
        config_file files = Absent ->
        new_detector default_config files = inr detector ->
        detect_regressions line_fit detector = Ok regressions ->
        let status :=
          process_status
            (fst (run_script (detect_regressions line_fit) generate_report
                    resolving_library calm sample_clock
                    (Options (mkArgs false false false)) files)) in
        (regressions = [] -> status = c0) /\
        (Exists (fun r => severity r = critical) regressions -> status = c1) /\
        (regressions <> [] -> Forall (fun r => severity r <> critical) regressions ->
         status = c2).
Proof.
  intros [c0 [c1 [c2 [Hdistinct [_ [_ Hall]]]]]].
  destruct (Hall zero_divisor_files
              (mkDetector default_config [("disk_errors", PInt 3)]
                 [("disk_errors", PInt 0)] [])
              [] eq_refl eq_refl eq_refl) as [Hnone _].
  destruct (Hall sample_files
              (mkDetector default_config [("cpu_usage", PInt 50)]
                 [("cpu_usage", PInt 100)] [])
              _ eq_refl eq_refl eq_refl) as [_ [Hcritical _]].
  specialize (Hnone eq_refl).
  assert (Hc : c1 = 1%Z).
  { rewrite <- Hcritical; [reflexivity |]. left. reflexivity. }
  apply Hdistinct. rewrite Hc, <- Hnone. reflexivity.
Qed.




Lemma script_import_error_witness :
  process_status
    (fst (run_script (detect_regressions line_fit) generate_report standard_library calm
            sample_clock (Options (mkArgs false false false)) steady_files)) = 1%Z.
Proof.
  refine (proj2 (script_import_error (detect_regressions line_fit) generate_report
                   standard_library calm sample_clock (Options (mkArgs false false false))
                   steady_files _)).
  intros defined Hdefined. injection Hdefined as <-.
  intros [H | []]. discriminate H.
Defined.
